(** * Smart-home hub: the MQTT ingestion path and the batch execution of
      translated actions of [main.py], embedded and verified.

    The embedding follows the Python source function by function:
    [on_mqtt_message], [handle_device_status], [handle_sensor_data],
    [handle_energy_data], [get_devices] and [ai_command].  The process
    state ([devices], [sensor_data], the SQLite file, what was sent to the
    web clients, what was printed, the MQTT client) is one record that the
    functions thread through a state-and-exception monad.

    Outside the model: threads (each call runs alone), a store that cannot
    be opened or written, non-finite floats, the TEXT affinity of the
    status column (a str is stored as it is) and row ids.  The library
    functions [bytes.decode], [json.loads], [json.dumps], [str], the
    validation done by the MQTT client and SQLite's reading of a text as
    a number are parameters of the development. *)

From Stdlib Require Import ZArith QArith Qcanon Ascii.
From stdpp Require Import base numbers list strings pretty gmap.

Local Set Warnings "-register-all".
Local Open Scope Z_scope.

(** ** Python values *)

(** What [json.loads] can return.  Numbers are Python ints and (finite)
    floats; a dict is kept as the list of its items, keys unique. *)
Inductive json : Type :=
  | JNull
  | JBool (b : bool)
  | JInt (n : Z)
  | JFloat (q : Qc)
  | JStr (s : string)
  | JArr (l : list json)
  | JObj (items : list (string * json)).

(** A raised exception: its class and [str(e)]. *)
Inductive exn : Type := Exn (cls msg : string).

Definition str_exn (e : exn) : string := let 'Exn _ m := e in m.

Inductive result (A : Type) : Type :=
  | Ok (a : A)
  | Raise (e : exn).
Arguments Ok {A} a.
Arguments Raise {A} e.

Definition type_name (v : json) : string :=
  match v with
  | JNull => "NoneType"
  | JBool _ => "bool"
  | JInt _ => "int"
  | JFloat _ => "float"
  | JStr _ => "str"
  | JArr _ => "list"
  | JObj _ => "dict"
  end.

(** Truth value of a Python object, as [if x:] tests it. *)
Definition truthy (v : json) : bool :=
  match v with
  | JNull => false
  | JBool b => b
  | JInt n => negb (n =? 0)
  | JFloat q => negb (bool_decide (q = 0%Qc))
  | JStr s => negb (String.eqb s "")
  | JArr l => negb (bool_decide (length l = 0%nat))
  | JObj items => negb (bool_decide (length items = 0%nat))
  end.

(** Truth value of [device_id], which is a [str] or [None]. *)
Definition truthy_id (device_id : option string) : bool :=
  match device_id with
  | None => false
  | Some s => negb (String.eqb s "")
  end.

Fixpoint dict_lookup (k : string) (items : list (string * json)) : option json :=
  match items with
  | [] => None
  | (k', v) :: rest => if String.eqb k' k then Some v else dict_lookup k rest
  end.

(** [obj.get(k, default)]: only a dict has the method. *)
Definition py_get (obj : json) (k : string) (default : json) : result json :=
  match obj with
  | JObj items => Ok (match dict_lookup k items with
                      | Some v => v
                      | None => default
                      end)
  | _ => Raise (Exn "AttributeError"
                  ("'" +:+ type_name obj +:+ "' object has no attribute 'get'"))
  end.

(** [k in obj] for a string [k]: key test on a dict, element test on a
    list, substring test on a str; other objects are not iterable. *)
Fixpoint startswith (p s : string) : bool :=
  match p, s with
  | EmptyString, _ => true
  | String a p', String b s' => Ascii.eqb a b && startswith p' s'
  | String _ _, EmptyString => false
  end.

(** [sub in s] on strings. *)
Fixpoint contains (sub s : string) : bool :=
  startswith sub s ||
  match s with
  | EmptyString => false
  | String _ s' => contains sub s'
  end.

Definition py_in (k : string) (obj : json) : result bool :=
  match obj with
  | JObj items => Ok (bool_decide (is_Some (dict_lookup k items)))
  | JArr l => Ok (existsb (fun x => match x with
                                    | JStr s => String.eqb s k
                                    | _ => false
                                    end) l)
  | JStr s => Ok (contains k s)
  | _ => Raise (Exn "TypeError"
                  ("argument of type '" +:+ type_name obj +:+ "' is not iterable"))
  end.

(** [obj[k]] for a string [k]. *)
Definition py_getitem (obj : json) (k : string) : result json :=
  match obj with
  | JObj items => match dict_lookup k items with
                  | Some v => Ok v
                  | None => Raise (Exn "KeyError" ("'" +:+ k +:+ "'"))
                  end
  | JArr _ => Raise (Exn "TypeError" "list indices must be integers or slices, not str")
  | JStr _ => Raise (Exn "TypeError" "string indices must be integers")
  | _ => Raise (Exn "TypeError"
                  ("'" +:+ type_name obj +:+ "' object is not subscriptable"))
  end.

(** [for x in obj]: the elements of a list, the keys of a dict, the
    characters of a str. *)
Fixpoint chars (s : string) : list json :=
  match s with
  | EmptyString => []
  | String c s' => JStr (String c EmptyString) :: chars s'
  end.

Definition py_iter (obj : json) : result (list json) :=
  match obj with
  | JArr l => Ok l
  | JObj items => Ok (map (fun kv => JStr (fst kv)) items)
  | JStr s => Ok (chars s)
  | _ => Raise (Exn "TypeError"
                  ("'" +:+ type_name obj +:+ "' object is not iterable"))
  end.

(** [s.split(sep)] for a one-character separator. *)
Fixpoint split (sep : ascii) (s : string) : list string :=
  match s with
  | EmptyString => [EmptyString]
  | String c s' =>
      if Ascii.eqb c sep then EmptyString :: split sep s'
      else match split sep s' with
           | [] => [String c EmptyString]
           | p :: ps => String c p :: ps
           end
  end.

(** ** The SQLite store *)

(** A value bound to a [?] placeholder or held in a column.  Column
    affinity conversions are not modelled: a column holds what was bound. *)
Inductive sqlval : Type :=
  | SNull
  | SInt (n : Z)
  | SReal (q : Qc)
  | SText (s : string).

(** The sqlite3 adapter: [None], [int] (64 bits), [float] and [str] can be
    bound; a list or a dict cannot. *)
Definition sql_bind (pos : string) (v : json) : result sqlval :=
  match v with
  | JNull => Ok SNull
  | JBool b => Ok (SInt (if b then 1 else 0))
  | JInt n =>
      if bool_decide (- 2 ^ 63 <= n < 2 ^ 63) then Ok (SInt n)
      else Raise (Exn "OverflowError"
                    "Python int too large to convert to SQLite INTEGER")
  | JFloat q => Ok (SReal q)
  | JStr s => Ok (SText s)
  | JArr _ | JObj _ =>
      Raise (Exn "InterfaceError"
               ("Error binding parameter " +:+ pos +:+ " - probably unsupported type."))
  end.

(** The double nearest to an integer: an integer of more than 53
    significant bits is rounded to 53 bits, ties to even. *)
Definition round53 (n : Z) : Z :=
  let a := Z.abs n in
  let bits := Z.log2 a + 1 in
  if bits <=? 53 then n
  else
    let shift := bits - 53 in
    let q := Z.shiftr a shift in
    let r := Z.land a (Z.ones shift) in
    let half := Z.shiftl 1 (shift - 1) in
    let q' := if (half <? r) || ((r =? half) && Z.odd q) then q + 1 else q in
    Z.sgn n * Z.shiftl q' shift.

Definition real_of_int (n : Z) : Qc := Q2Qc (inject_Z (round53 n)).

(** What a column of REAL affinity, as [power_watts REAL], holds for a
    bound value: an integer becomes a float, a text that reads as a number
    becomes that number, anything else is stored as it is. *)
Definition real_affinity (sqlite_real : string -> option Qc) (v : sqlval) : sqlval :=
  match v with
  | SNull => SNull
  | SInt n => SReal (real_of_int n)
  | SReal q => SReal q
  | SText s => match sqlite_real s with
               | Some q => SReal q
               | None => SText s
               end
  end.

(** Rows of the four tables of [init_database]; the AUTOINCREMENT key of
    the three append-only tables is the position of the row. *)
Record device_row : Type := {
  d_id : string;
  d_name : string;
  d_type : string;
  d_room : string;
  d_status : sqlval;
  d_last_seen : sqlval;
  d_config : option string
}.

Record log_row : Type := {
  l_device_id : string;
  l_action : string;
  l_value : string;
  l_timestamp : string
}.

Record energy_row : Type := {
  e_device_id : string;
  e_power_watts : sqlval;
  e_timestamp : string
}.

Record security_row : Type := {
  s_sensor_id : string;
  s_event_type : string;
  s_description : string;
  s_timestamp : string
}.

Record Db : Type := {
  t_devices : list device_row;
  t_device_logs : list log_row;
  t_energy_consumption : list energy_row;
  t_security_events : list security_row
}.

(** [UPDATE devices SET status = ?, last_seen = CURRENT_TIMESTAMP WHERE id = ?] *)
Definition update_status (status : sqlval) (now id : string) (r : device_row)
  : device_row :=
  if String.eqb (d_id r) id then
    {| d_id := d_id r; d_name := d_name r; d_type := d_type r;
       d_room := d_room r; d_status := status; d_last_seen := SText now;
       d_config := d_config r |}
  else r.

Definition sql_update_device (status : sqlval) (now id : string) (c : Db) : Db :=
  {| t_devices := map (update_status status now id) (t_devices c);
     t_device_logs := t_device_logs c;
     t_energy_consumption := t_energy_consumption c;
     t_security_events := t_security_events c |}.

(** [INSERT INTO device_logs (device_id, action, value) VALUES (?, ?, ?)] *)
Definition sql_insert_log (id action value now : string) (c : Db) : Db :=
  {| t_devices := t_devices c;
     t_device_logs := t_device_logs c ++
       [{| l_device_id := id; l_action := action; l_value := value;
           l_timestamp := now |}];
     t_energy_consumption := t_energy_consumption c;
     t_security_events := t_security_events c |}.

(** [INSERT INTO security_events (sensor_id, event_type, description) VALUES (?, ?, ?)] *)
Definition sql_insert_security (id event_type description now : string) (c : Db)
  : Db :=
  {| t_devices := t_devices c;
     t_device_logs := t_device_logs c;
     t_energy_consumption := t_energy_consumption c;
     t_security_events := t_security_events c ++
       [{| s_sensor_id := id; s_event_type := event_type;
           s_description := description; s_timestamp := now |}] |}.

(** [INSERT INTO energy_consumption (device_id, power_watts) VALUES (?, ?)] *)
Definition sql_insert_energy (sqlite_real : string -> option Qc) (id : string)
    (power : sqlval) (now : string) (c : Db) : Db :=
  {| t_devices := t_devices c;
     t_device_logs := t_device_logs c;
     t_energy_consumption := t_energy_consumption c ++
       [{| e_device_id := id; e_power_watts := real_affinity sqlite_real power;
           e_timestamp := now |}];
     t_security_events := t_security_events c |}.

(** What [get_devices] reads back from a column. *)
Definition sql_to_json (v : sqlval) : json :=
  match v with
  | SNull => JNull
  | SInt n => JInt n
  | SReal q => JFloat q
  | SText s => JStr s
  end.

(** ** The process state and the monad of the handlers *)

Record World : Type := {
  devices : gmap string json;            (* the global dict [devices] *)
  sensor_data : gmap string json;        (* the global dict [sensor_data] *)
  db : Db;                               (* smart_home.db, as committed *)
  emitted : list (string * json);        (* [socketio.emit] calls, in order *)
  printed : list string;                 (* lines written by [print] *)
  mqtt_client : option (list (string * string))
    (* [None] until [init_mqtt]; then the messages handed to [publish] *)
}.

(** The two clocks the handlers read. *)
Record clock : Type := {
  CURRENT_TIMESTAMP : string;            (* SQLite, at the write *)
  datetime_now_isoformat : string        (* [datetime.now().isoformat()] *)
}.

Definition M (A : Type) : Type := World -> result A * World.

Definition ret {A} (a : A) : M A := fun w => (Ok a, w).

Definition bind {A B} (c : M A) (k : A -> M B) : M B := fun w =>
  match c w with
  | (Ok a, w') => k a w'
  | (Raise e, w') => (Raise e, w')
  end.

Definition lift {A} (r : result A) : M A := fun w => (r, w).

(** [try: c  except Exception as e: h e] *)
Definition try_except {A} (c : M A) (h : exn -> M A) : M A := fun w =>
  match c w with
  | (Ok a, w') => (Ok a, w')
  | (Raise e, w') => h e w'
  end.

Declare Scope py_scope.
Delimit Scope py_scope with py.
Notation "'let*' x ':=' c 'in' k" := (bind c (fun x => k))
  (at level 10, x name, c at level 100, k at level 200) : py_scope.
Local Open Scope py_scope.

(** [d[k] = v] on the two global dicts. *)
Definition devices_setitem (k : string) (v : json) : M unit := fun w =>
  (Ok tt,
   {| devices := <[k := v]> (devices w); sensor_data := sensor_data w;
      db := db w; emitted := emitted w; printed := printed w;
      mqtt_client := mqtt_client w |}).

Definition sensor_data_setitem (k : string) (v : json) : M unit := fun w =>
  (Ok tt,
   {| devices := devices w; sensor_data := <[k := v]> (sensor_data w);
      db := db w; emitted := emitted w; printed := printed w;
      mqtt_client := mqtt_client w |}).

(** [sqlite3.connect]: the statements of a connection work on its own
    view of the file, which [commit] writes back; a connection dropped
    before [commit] leaves the file as it was. *)
Definition sqlite3_connect : M Db := fun w => (Ok (db w), w).

Definition commit (conn : Db) : M unit := fun w =>
  (Ok tt,
   {| devices := devices w; sensor_data := sensor_data w;
      db := conn; emitted := emitted w; printed := printed w;
      mqtt_client := mqtt_client w |}).

Definition socketio_emit (event : string) (data : json) : M unit := fun w =>
  (Ok tt,
   {| devices := devices w; sensor_data := sensor_data w;
      db := db w; emitted := emitted w ++ [(event, data)];
      printed := printed w; mqtt_client := mqtt_client w |}).

Definition print (line : string) : M unit := fun w =>
  (Ok tt,
   {| devices := devices w; sensor_data := sensor_data w;
      db := db w; emitted := emitted w; printed := printed w ++ [line];
      mqtt_client := mqtt_client w |}).

Record mqtt_msg : Type := {
  topic : string;
  payload : string                       (* the raw bytes *)
}.

Section Hub.

(** The library functions the hub calls on data, left abstract. *)
Variable decode : string -> result string.        (* [bytes.decode()] *)
Variable json_loads : string -> result json.      (* [json.loads] *)
Variable json_dumps : json -> string.             (* [json.dumps] *)
(** SQLite's reading of a text as a number, when the text is stored in a
    column of REAL affinity; [None] for a text that is no numeric literal. *)
Variable sqlite_real : string -> option Qc.
Variable py_repr : json -> string.   (* [str(x)] of an object that is not a str *)
(** What the MQTT library raises, if anything, for a topic and a body. *)
Variable publish_check : string -> string -> option exn.

(** ** The MQTT handlers *)

Definition handle_device_status (clk : clock) (device_id : option string)
    (payload : json) : M unit :=
  match device_id with
  | Some id =>
      if truthy_id device_id then
        let* _ := devices_setitem id payload in
        let* conn := sqlite3_connect in
        let* status := lift (py_get payload "status" (JStr "online")) in
        let* status := lift (sql_bind "0" status) in
        let conn := sql_update_device status (CURRENT_TIMESTAMP clk) id conn in
        let conn := sql_insert_log id "status_update" (json_dumps payload)
                      (CURRENT_TIMESTAMP clk) conn in
        let* _ := commit conn in
        socketio_emit "device_update"
          (JObj [("device_id", JStr id); ("data", payload)])
      else ret tt
  | None => ret tt
  end.

Definition handle_sensor_data (clk : clock) (device_id : option string)
    (payload : json) : M unit :=
  match device_id with
  | Some id =>
      if truthy_id device_id then
        let* _ := sensor_data_setitem id payload in
        let* motion := lift (py_get payload "motion_detected" JNull) in
        if truthy motion then
          let* conn := sqlite3_connect in
          let conn := sql_insert_security id "motion_detected"
                        "Motion detected by sensor" (CURRENT_TIMESTAMP clk) conn in
          let* _ := commit conn in
          socketio_emit "security_alert"
            (JObj [("sensor_id", JStr id); ("event", JStr "motion_detected");
                   ("timestamp", JStr (datetime_now_isoformat clk))])
        else ret tt
      else ret tt
  | None => ret tt
  end.

Definition handle_energy_data (clk : clock) (device_id : option string)
    (payload : json) : M unit :=
  match device_id with
  | Some id =>
      if truthy_id device_id then
        let* has_power := lift (py_in "power_watts" payload) in
        if has_power then
          let* conn := sqlite3_connect in
          let* power := lift (py_getitem payload "power_watts") in
          let* power := lift (sql_bind "1" power) in
          let conn := sql_insert_energy sqlite_real id power
                        (CURRENT_TIMESTAMP clk) conn in
          commit conn
        else ret tt
      else ret tt
  | None => ret tt
  end.

Definition on_mqtt_message (clk : clock) (msg : mqtt_msg) : M unit :=
  try_except
    (let* text := lift (decode (payload msg)) in
     let* payload := lift (json_loads text) in
     let topic_parts := split "/" (topic msg) in
     let device_id :=
       if bool_decide (1 < length topic_parts)%nat then topic_parts !! 1%nat
       else None in
     if contains "status" (topic msg) then
       handle_device_status clk device_id payload
     else if contains "sensor" (topic msg) then
       handle_sensor_data clk device_id payload
     else if contains "energy" (topic msg) then
       handle_energy_data clk device_id payload
     else ret tt)
    (fun e => print ("Error processing MQTT message: " +:+ str_exn e)).


(** ** Reading the devices back ([/api/devices]) *)

Fixpoint for_each {A} (body : A -> M unit) (l : list A) : M unit :=
  match l with
  | [] => ret tt
  | x :: rest => let* _ := body x in for_each body rest
  end.

Fixpoint map_each {A B} (body : A -> M B) (l : list A) : M (list B) :=
  match l with
  | [] => ret []
  | x :: rest =>
      let* y := body x in
      let* ys := map_each body rest in
      ret (y :: ys)
  end.

Definition get_devices : M json :=
  let* conn := sqlite3_connect in
  let* devices_list :=
    map_each (fun row =>
      let* config :=
        match d_config row with
        | Some text =>
            if truthy_id (d_config row) then lift (json_loads text)
            else ret (JObj [])
        | None => ret (JObj [])
        end in
      ret (JObj [("id", JStr (d_id row)); ("name", JStr (d_name row));
                 ("type", JStr (d_type row)); ("room", JStr (d_room row));
                 ("status", sql_to_json (d_status row));
                 ("last_seen", sql_to_json (d_last_seen row));
                 ("config", config)]))
      (t_devices conn) in
  ret (JArr devices_list).

(** ** Natural-language commands ([/api/ai/command]) *)

(** [{x}] inside an f-string. *)
Definition py_format (x : json) : string :=
  match x with
  | JStr s => s
  | _ => py_repr x
  end.

Definition nl : string := String "010" EmptyString.
Definition dq : string := String "034" EmptyString.

Fixpoint join_lines (lines : list string) : string :=
  match lines with
  | [] => EmptyString
  | [l] => l
  | l :: rest => l +:+ nl +:+ join_lines rest
  end.

Definition prompt_text (user_input : json) (context : string) : string :=
  join_lines
    ["";
     "        You are a smart home assistant. Based on this command: " +:+ dq +:+ py_format user_input +:+ dq;
     "        ";
     "        " +:+ context;
     "        ";
     "        Generate a JSON response with device control commands. Format:";
     "        {";
     "            " +:+ dq +:+ "actions" +:+ dq +:+ ": [";
     "                {" +:+ dq +:+ "device_id" +:+ dq +:+ ": " +:+ dq +:+ "device_id" +:+ dq +:+ ", " +:+ dq +:+ "command" +:+ dq +:+ ": {" +:+ dq +:+ "action" +:+ dq +:+ ": " +:+ dq +:+ "value" +:+ dq +:+ "}}";
     "            ],";
     "            " +:+ dq +:+ "response" +:+ dq +:+ ": " +:+ dq +:+ "Human-readable response" +:+ dq;
     "        }";
     "        ";
     "        For lights: {" +:+ dq +:+ "power" +:+ dq +:+ ": " +:+ dq +:+ "on/off" +:+ dq +:+ ", " +:+ dq +:+ "brightness" +:+ dq +:+ ": 0-100}";
     "        For fans: {" +:+ dq +:+ "power" +:+ dq +:+ ": " +:+ dq +:+ "on/off" +:+ dq +:+ ", " +:+ dq +:+ "speed" +:+ dq +:+ ": 0-5}";
     "        For AC: {" +:+ dq +:+ "power" +:+ dq +:+ ": " +:+ dq +:+ "on/off" +:+ dq +:+ ", " +:+ dq +:+ "temperature" +:+ dq +:+ ": 16-30, " +:+ dq +:+ "mode" +:+ dq +:+ ": " +:+ dq +:+ "cool/heat/auto" +:+ dq +:+ "}";
     "        ";
     "        Only return valid JSON.";
     "        "].

(** [mqtt_client.publish(topic, payload)] *)
Definition mqtt_publish (topic payload : string) : M unit := fun w =>
  match mqtt_client w with
  | None =>
      (Raise (Exn "AttributeError" "'NoneType' object has no attribute 'publish'"), w)
  | Some sent =>
      match publish_check topic payload with
      | Some e => (Raise e, w)
      | None =>
          (Ok tt,
           {| devices := devices w; sensor_data := sensor_data w;
              db := db w; emitted := emitted w; printed := printed w;
              mqtt_client := Some (sent ++ [(topic, payload)]) |})
      end
  end.

(** The body of the loop over the translated actions. *)
Definition execute_action (action : json) : M unit :=
  let* device_id := lift (py_get action "device_id" JNull) in
  let* command := lift (py_get action "command" JNull) in
  if truthy device_id && truthy command then
    let topic := "smarthome/" +:+ py_format device_id +:+ "/control" in
    mqtt_publish topic (json_dumps command)
  else ret tt.

(** The device list put before the translator. *)
Definition device_context (device_list : list device_row) : string :=
  fold_left (fun context device =>
      context +:+ "- " +:+ d_name device +:+ " (ID: " +:+ d_id device
        +:+ ", Type: " +:+ d_type device +:+ ", Room: "
        +:+ d_room device +:+ ")" +:+ nl)
    device_list ("Available devices:" +:+ nl).

Definition ai_command (GEMINI_API_KEY : option string)
    (generate_content : string -> result string) (request_json : json)
  : M json :=
  try_except
    (let* user_input := lift (py_get request_json "command" (JStr "")) in
     let api_key := GEMINI_API_KEY in
     if negb (truthy_id api_key) then
       ret (JObj [("success", JBool false);
                  ("error", JStr "Gemini API key not configured")])
     else
       let* conn := sqlite3_connect in
       let device_list := t_devices conn in
       let context := device_context device_list in
       let prompt := prompt_text user_input context in
       let* text := lift (generate_content prompt) in
       let* ai_response := lift (json_loads text) in
       let* actions := lift (py_get ai_response "actions" (JArr [])) in
       let* actions := lift (py_iter actions) in
       let* _ := for_each execute_action actions in
       let* response :=
         lift (py_get ai_response "response" (JStr "Commands executed")) in
       let* actions := lift (py_get ai_response "actions" (JArr [])) in
       ret (JObj [("success", JBool true); ("response", response);
                  ("actions", actions)]))
    (fun e => ret (JObj [("success", JBool false);
                         ("error", JStr (str_exn e))])).

(** What one round of the loop does on an initialised client: the
    message it hands to the client, none when the action is skipped, or
    the exception it raises. *)
Definition action_outcome (action : json) : result (option (string * string)) :=
  match action with
  | JObj items =>
      let device_id := match dict_lookup "device_id" items with
                       | Some v => v
                       | None => JNull
                       end in
      let command := match dict_lookup "command" items with
                     | Some v => v
                     | None => JNull
                     end in
      if truthy device_id && truthy command then
        let topic := "smarthome/" +:+ py_format device_id +:+ "/control" in
        match publish_check topic (json_dumps command) with
        | Some e => Raise e
        | None => Ok (Some (topic, json_dumps command))
        end
      else Ok None
  | _ => Raise (Exn "AttributeError"
                  ("'" +:+ type_name action +:+ "' object has no attribute 'get'"))
  end.

(** The messages handed to the client by a run of actions. *)
Definition published_by (actions : list json) : list (string * string) :=
  omap (fun action => match action_outcome action with
                      | Ok m => m
                      | Raise _ => None
                      end) actions.

End Hub.

(** The state with a message list in place of the client's. *)
Definition with_published (sent : list (string * string)) (w : World) : World :=
  {| devices := devices w; sensor_data := sensor_data w; db := db w;
     emitted := emitted w; printed := printed w; mqtt_client := Some sent |}.

(** The device id of a topic, as [on_mqtt_message] extracts it. *)
Definition topic_device_id (topic : string) : option string :=
  let topic_parts := split "/" topic in
  if bool_decide (1 < length topic_parts)%nat then topic_parts !! 1%nat
  else None.

(** [sub] occurs in [s]. *)
Definition has_substring (sub s : string) : Prop :=
  exists pre post, s = pre +:+ sub +:+ post.

(** The [try ... except] wrapper of [on_mqtt_message] around a handler. *)
Definition guarded (c : M unit) : M unit :=
  try_except c (fun e => print ("Error processing MQTT message: " +:+ str_exn e)).

(** The state after a failure that the handler of [on_mqtt_message]
    reports: one more printed line, nothing else. *)
Definition after_error (e : exn) (w : World) : World :=
  {| devices := devices w; sensor_data := sensor_data w; db := db w;
     emitted := emitted w;
     printed := printed w ++ ["Error processing MQTT message: " +:+ str_exn e];
     mqtt_client := mqtt_client w |}.

(** A power reading that is a non-negative number. *)
Definition nonneg_power (v : sqlval) : Prop :=
  match v with
  | SInt n => 0 <= n
  | SReal q => (0 <= q)%Qc
  | SNull | SText _ => False
  end.

(** A JSON number, and a JSON number that is not negative. *)
Definition is_number (v : json) : Prop :=
  match v with
  | JInt _ | JFloat _ => True
  | _ => False
  end.

Definition payload_nonneg (v : json) : Prop :=
  match v with
  | JInt n => 0 <= n
  | JFloat q => (0 <= q)%Qc
  | _ => False
  end.

(** ** Database initialisation *)

Definition sample_device (id name type room config : string) : device_row :=
  {| d_id := id; d_name := name; d_type := type; d_room := room;
     d_status := SText "offline"; d_last_seen := SNull;
     d_config := Some config |}.

Definition brightness_100 : string := "{" +:+ dq +:+ "brightness" +:+ dq +:+ ": 100}".

Definition sample_devices : list device_row :=
  [ sample_device "living_room_light" "Living Room Light" "light" "living_room"
      brightness_100;
    sample_device "living_room_fan" "Living Room Fan" "fan" "living_room"
      ("{" +:+ dq +:+ "speed" +:+ dq +:+ ": 0}");
    sample_device "bedroom_light" "Bedroom Light" "light" "bedroom" brightness_100;
    sample_device "bedroom_ac" "Bedroom AC" "ac" "bedroom"
      ("{" +:+ dq +:+ "temperature" +:+ dq +:+ ": 24, " +:+ dq +:+ "mode" +:+ dq
         +:+ ": " +:+ dq +:+ "cool" +:+ dq +:+ "}");
    sample_device "kitchen_light" "Kitchen Light" "light" "kitchen" brightness_100;
    sample_device "motion_sensor_entrance" "Entrance Motion Sensor" "motion_sensor"
      "entrance" "{}" ].

(** [init_database]: the tables exist afterwards; the sample devices are
    inserted when the devices table is empty. *)
Definition init_database : M unit :=
  let* conn := sqlite3_connect in
  let conn :=
    if bool_decide (length (t_devices conn) = 0%nat) then
      {| t_devices := t_devices conn ++ sample_devices;
         t_device_logs := t_device_logs conn;
         t_energy_consumption := t_energy_consumption conn;
         t_security_events := t_security_events conn |}
    else conn in
  commit conn.

(** ** A concrete environment, for running the model *)

(** [json.dumps] with its default separators, on documents without floats
    and without characters that need escaping; a float is written as its
    fraction. *)
Fixpoint sample_json_dumps (v : json) : string :=
  match v with
  | JNull => "null"
  | JBool true => "true"
  | JBool false => "false"
  | JInt n => pretty n
  | JFloat q => pretty (Qnum (this q)) +:+ "/" +:+ pretty (Zpos (Qden (this q)))
  | JStr s => dq +:+ s +:+ dq
  | JArr l =>
      "[" +:+
      (fix go (l : list json) : string :=
         match l with
         | [] => ""
         | [x] => sample_json_dumps x
         | x :: rest => sample_json_dumps x +:+ ", " +:+ go rest
         end) l +:+ "]"
  | JObj items =>
      "{" +:+
      (fix go (items : list (string * json)) : string :=
         match items with
         | [] => ""
         | [(k, x)] => dq +:+ k +:+ dq +:+ ": " +:+ sample_json_dumps x
         | (k, x) :: rest =>
             dq +:+ k +:+ dq +:+ ": " +:+ sample_json_dumps x +:+ ", " +:+ go rest
         end) items +:+ "}"
  end.

Definition status_online_80 : json :=
  JObj [("status", JStr "online"); ("brightness", JInt 80)].

Definition power_on : json := JObj [("power", JStr "on")].

Definition sample_documents : list json :=
  [ status_online_80;
    JObj [("brightness", JInt 100)];
    JObj [("brightness", JInt 60)];
    JObj [("motion_detected", JBool true)];
    JObj [("motion_detected", JBool false)];
    JObj [("power_watts", JInt 45)];
    JObj [("power_watts", JInt (-5))];
    JObj [("timestamp", JStr "2024-01-01T00:00:00")];
    power_on;
    JObj [];
    JObj [("actions",
           JArr [JObj [("device_id", JStr "living_room_fan"); ("command", power_on)];
                 JObj [("device_id", JStr "kitchen_light"); ("command", power_on)]]);
          ("response", JStr "Done")];
    JObj [("actions",
           JArr [JObj [("device_id", JStr "all+lights"); ("command", power_on)];
                 JObj [("device_id", JStr "living_room_fan"); ("command", power_on)]]);
          ("response", JStr "Done")];
    JObj [("actions",
           JArr [JObj [("device_id", JStr "living_room_fan"); ("command", power_on)];
                 JObj [("device_id", JStr "all+lights"); ("command", power_on)];
                 JObj [("device_id", JStr "kitchen_light"); ("command", power_on)]]);
          ("response", JStr "Done")] ].

(** A parser that knows the sample documents. *)
Definition sample_json_loads (text : string) : result json :=
  match filter (fun v => sample_json_dumps v = text) sample_documents with
  | v :: _ => Ok v
  | [] => Raise (Exn "JSONDecodeError" "Expecting value: line 1 column 1 (char 0)")
  end.

Definition sample_decode (raw : string) : result string := Ok raw.

(** The MQTT client refuses an empty topic and a topic with a wildcard. *)
Definition sample_publish_check (topic payload : string) : option exn :=
  if String.eqb topic "" then Some (Exn "ValueError" "Invalid topic.")
  else if contains "+" topic || contains "#" topic then
    Some (Exn "ValueError" "Publish topic cannot contain wildcards.")
  else None.

Definition empty_db : Db :=
  {| t_devices := []; t_device_logs := []; t_energy_consumption := [];
     t_security_events := [] |}.

(** The process before [init_database] and [init_mqtt]. *)
Definition world0 : World :=
  {| devices := ∅; sensor_data := ∅; db := empty_db; emitted := [];
     printed := []; mqtt_client := None |}.

(** After [init_database] on a fresh file and [init_mqtt]. *)
Definition started : World :=
  let w := snd (init_database world0) in
  {| devices := devices w; sensor_data := sensor_data w; db := db w;
     emitted := emitted w; printed := printed w; mqtt_client := Some [] |}.

Definition sample_clock : clock :=
  {| CURRENT_TIMESTAMP := "2024-01-01 00:00:00";
     datetime_now_isoformat := "2024-01-01T00:00:00.000000" |}.

(** A reader of numbers that knows a few texts. *)
Definition sample_real (text : string) : option Qc :=
  if String.eqb text "5" then Some (Q2Qc (inject_Z 5))
  else if String.eqb text "45" then Some (Q2Qc (inject_Z 45))
  else if String.eqb text "-5" then Some (Q2Qc (inject_Z (-5)))
  else None.

Definition ingest : clock -> mqtt_msg -> M unit :=
  on_mqtt_message sample_decode sample_json_loads sample_json_dumps sample_real.

(** A hub whose devices table has the one device [light1]. *)
Definition home : World :=
  {| devices := ∅; sensor_data := ∅;
     db := {| t_devices := [sample_device "light1" "Light 1" "light" "hall"
                              brightness_100];
              t_device_logs := []; t_energy_consumption := [];
              t_security_events := [] |};
     emitted := []; printed := []; mqtt_client := Some [] |}.

Definition message (topic : string) (doc : json) : mqtt_msg :=
  {| topic := topic; payload := sample_json_dumps doc |}.

Definition light1_status : mqtt_msg := message "home/light1/status" status_online_80.

Definition living_room_status : mqtt_msg :=
  message "smarthome/living_room_light/status" status_online_80.

Definition motion1_sensor : mqtt_msg :=
  message "home/motion1/sensor" (JObj [("motion_detected", JBool true)]).

Definition fan_energy : mqtt_msg :=
  message "smarthome/living_room_fan/energy" (JObj [("power_watts", JInt 45)]).

Definition negative_energy : mqtt_msg :=
  message "smarthome/living_room_fan/energy" (JObj [("power_watts", JInt (-5))]).

Definition control_echo : mqtt_msg :=
  message "smarthome/living_room_light/control" power_on.

Definition not_json : mqtt_msg :=
  {| topic := "smarthome/living_room_light/status"; payload := "not json" |}.

Definition no_segment : mqtt_msg := message "status" status_online_80.

(** The translator's answer for three actions, the second one for a
    device id that is no valid topic segment. *)
Definition three_actions : json :=
  JObj [("actions",
         JArr [JObj [("device_id", JStr "living_room_fan"); ("command", power_on)];
               JObj [("device_id", JStr "all+lights"); ("command", power_on)];
               JObj [("device_id", JStr "kitchen_light"); ("command", power_on)]]);
        ("response", JStr "Done")].

Definition translate_three (prompt : string) : result string :=
  Ok (sample_json_dumps three_actions).

Definition run_three : result json * World :=
  ai_command sample_json_loads sample_json_dumps sample_json_dumps
    sample_publish_check (Some "key") translate_three
    (JObj [("command", JStr "switch everything on")]) started.

(** ** Further parts of the hub *)

(** [c] occurs in [s]. *)
Fixpoint has_char (c : ascii) (s : string) : bool :=
  match s with
  | EmptyString => false
  | String b s' => Ascii.eqb b c || has_char c s'
  end.

(** The topic of a device on the bus, [f"smarthome/{device_id}/{kind}"]. *)
Definition device_topic (device_id kind : string) : string :=
  "smarthome/" +:+ device_id +:+ "/" +:+ kind.

Section Api.

Variable json_loads : string -> result json.
Variable json_dumps : json -> string.
Variable publish_check : string -> string -> option exn.

(** [/api/device/<device_id>/control]: the response and its HTTP status. *)
Definition control_device (clk : clock) (device_id : string) (request_json : json)
  : M (json * Z) :=
  try_except
    (let command := request_json in
     let topic := "smarthome/" +:+ device_id +:+ "/control" in
     let* _ := mqtt_publish publish_check topic (json_dumps command) in
     let* conn := sqlite3_connect in
     let conn := sql_insert_log device_id "control_command" (json_dumps command)
                   (CURRENT_TIMESTAMP clk) conn in
     let* _ := commit conn in
     ret (JObj [("success", JBool true); ("message", JStr "Command sent")], 200))
    (fun e => ret (JObj [("success", JBool false); ("error", JStr (str_exn e))], 500)).

(** The config that [get_devices] shows for a row:
    [json.loads(row[6]) if row[6] else {}]. *)
Definition row_config (row : device_row) : result json :=
  match d_config row with
  | Some text =>
      if truthy_id (d_config row) then json_loads text else Ok (JObj [])
  | None => Ok (JObj [])
  end.

(** The dict that [get_devices] builds for one row. *)
Definition device_dict (row : device_row) (config : json) : json :=
  JObj [("id", JStr (d_id row)); ("name", JStr (d_name row));
        ("type", JStr (d_type row)); ("room", JStr (d_room row));
        ("status", sql_to_json (d_status row));
        ("last_seen", sql_to_json (d_last_seen row));
        ("config", config)].

Definition device_entry (row : device_row) : result json :=
  match row_config row with
  | Ok config => Ok (device_dict row config)
  | Raise e => Raise e
  end.

End Api.

(** The entries of a list of rows, up to the first one that fails. *)
Fixpoint entries (entry : device_row -> result json) (rows : list device_row)
  : result (list json) :=
  match rows with
  | [] => Ok []
  | row :: rest =>
      match entry row with
      | Ok y => match entries entry rest with
                | Ok ys => Ok (y :: ys)
                | Raise e => Raise e
                end
      | Raise e => Raise e
      end
  end.

(** What a call of [on_mqtt_message] or of an API function may do to the
    store: the devices table keeps its rows' identity and static columns,
    the other tables only grow. *)
Definition store_extends (c c' : Db) : Prop :=
  map d_id (t_devices c') = map d_id (t_devices c)
  /\ map d_name (t_devices c') = map d_name (t_devices c)
  /\ map d_type (t_devices c') = map d_type (t_devices c)
  /\ map d_room (t_devices c') = map d_room (t_devices c)
  /\ map d_config (t_devices c') = map d_config (t_devices c)
  /\ t_device_logs c `prefix_of` t_device_logs c'
  /\ t_energy_consumption c `prefix_of` t_energy_consumption c'
  /\ t_security_events c `prefix_of` t_security_events c'.

(** What a call may do to the process: it hands nothing to the MQTT
    client, extends the store, and only adds to the in-memory dicts, to
    the emitted events and to the printed lines. *)
Definition message_frame (w w' : World) : Prop :=
  mqtt_client w' = mqtt_client w
  /\ store_extends (db w) (db w')
  /\ dom (devices w) ⊆ dom (devices w')
  /\ dom (sensor_data w) ⊆ dom (sensor_data w')
  /\ emitted w `prefix_of` emitted w'
  /\ printed w `prefix_of` printed w'.

(** The messages of the bus, handed to [on_mqtt_message] one after the
    other, each at its own time. *)
Fixpoint deliver_all (decode : string -> result string)
    (json_loads : string -> result json) (json_dumps : json -> string)
    (sqlite_real : string -> option Qc)
    (msgs : list (clock * mqtt_msg)) (w : World) : World :=
  match msgs with
  | [] => w
  | (clk, msg) :: rest =>
      deliver_all decode json_loads json_dumps sqlite_real rest
        (snd (on_mqtt_message decode json_loads json_dumps sqlite_real clk msg w))
  end.

(** What a command may do to the process: it can only hand messages to
    the MQTT client, after those the client has. *)
Definition only_publishes (w w' : World) : Prop :=
  devices w' = devices w /\ sensor_data w' = sensor_data w /\ db w' = db w
  /\ emitted w' = emitted w /\ printed w' = printed w
  /\ match mqtt_client w with
     | None => mqtt_client w' = None
     | Some sent => exists more, mqtt_client w' = Some (sent ++ more)
     end.

(** An action that the loop of [ai_command] passes over: a dict without a
    truthy device id or without a truthy command. *)
Definition passed_over (action : json) : Prop :=
  exists items,
    action = JObj items
    /\ truthy (match dict_lookup "device_id" items with
               | Some v => v
               | None => JNull
               end)
       && truthy (match dict_lookup "command" items with
                  | Some v => v
                  | None => JNull
                  end) = false.

(** More documents for the sample parser: payloads that are no dict, a
    translation whose action names no device. *)
Definition no_device_action : json :=
  JObj [("actions", JArr [JObj [("command", power_on)]]);
        ("response", JStr "Done")].

Definition more_documents : list json :=
  sample_documents ++
  [JArr []; JObj [("status", JArr [])]; no_device_action;
   JObj [("power_watts", JArr [])]; JObj [("power_watts", JStr "5")]].

Definition loads_more (text : string) : result json :=
  match filter (fun v => sample_json_dumps v = text) more_documents with
  | v :: _ => Ok v
  | [] => Raise (Exn "JSONDecodeError" "Expecting value: line 1 column 1 (char 0)")
  end.

Definition ingest_more : clock -> mqtt_msg -> M unit :=
  on_mqtt_message sample_decode loads_more sample_json_dumps sample_real.

(** A devices table with a row whose config is no JSON. *)
Definition corrupt_home : World :=
  {| devices := ∅; sensor_data := ∅;
     db := {| t_devices := [sample_device "light1" "Light 1" "light" "hall"
                              brightness_100;
                            sample_device "light2" "Light 2" "light" "hall"
                              "brightness=100"];
              t_device_logs := []; t_energy_consumption := [];
              t_security_events := [] |};
     emitted := []; printed := []; mqtt_client := Some [] |}.

Example dumps_status_online_80 :
  sample_json_dumps status_online_80 =
  "{" +:+ dq +:+ "status" +:+ dq +:+ ": " +:+ dq +:+ "online" +:+ dq +:+ ", "
      +:+ dq +:+ "brightness" +:+ dq +:+ ": 80}".
Proof. vm_compute. reflexivity. Qed.

Example loads_dumps_status :
  sample_json_loads (sample_json_dumps status_online_80) = Ok status_online_80.
Proof. vm_compute. reflexivity. Qed.

Example split_topic :
  split "/" "smarthome/living_room_light/status"
  = ["smarthome"; "living_room_light"; "status"].
Proof. reflexivity. Qed.

Example split_empty : split "/" "" = [""].
Proof. reflexivity. Qed.

(** ** Strings: [in] is the substring relation *)

Lemma app_cons (a : ascii) (s1 s2 : string) :
  String a s1 +:+ s2 = String a (s1 +:+ s2).
Proof. reflexivity. Qed.

Lemma app_empty (s : string) : "" +:+ s = s.
Proof. reflexivity. Qed.

Lemma startswith_spec (p s : string) :
  startswith p s = true <-> exists post, s = p +:+ post.
Proof.
  revert s. induction p as [|a p IH]; intros s.
  - split; [intros _; exists s; reflexivity | reflexivity].
  - destruct s as [|b s]; simpl.
    + split; [discriminate | intros [post H]; rewrite app_cons in H; discriminate].
    + rewrite andb_true_iff, IH, Ascii.eqb_eq. split.
      * intros [-> [post ->]]. exists post. reflexivity.
      * intros [post H]. rewrite app_cons in H. injection H as -> ->. eauto.
Qed.

Lemma contains_spec (sub s : string) :
  contains sub s = true <-> has_substring sub s.
Proof.
  unfold has_substring. induction s as [|b s IH].
  - simpl. rewrite orb_false_r, startswith_spec. split.
    + intros [post H]. exists "", post. exact H.
    + intros [[|a pre] [post H]].
      * exists post. exact H.
      * rewrite app_cons in H. discriminate.
  - cbn [contains]. rewrite orb_true_iff, startswith_spec, IH. split.
    + intros [[post H] | (pre & post & H)].
      * exists "", post. exact H.
      * exists (String b pre), post. rewrite app_cons, H. reflexivity.
    + intros [[|a pre] [post H]].
      * left. exists post. exact H.
      * right. rewrite app_cons in H. injection H as -> ->. eauto.
Qed.

Lemma contains_false (sub s : string) :
  contains sub s = false <-> ~ has_substring sub s.
Proof.
  rewrite <- contains_spec. destruct (contains sub s); split; congruence.
Qed.

Lemma truthy_id_Some (id : string) : id <> "" -> truthy_id (Some id) = true.
Proof.
  intros H. simpl. destruct (String.eqb_spec id ""); [contradiction | reflexivity].
Qed.

Lemma truthy_id_false (device_id : option string) :
  truthy_id device_id = false <-> device_id = None \/ device_id = Some "".
Proof.
  destruct device_id as [s|]; simpl.
  - destruct (String.eqb_spec s "") as [-> | Hne]; simpl.
    + split; [auto | reflexivity].
    + split; [discriminate | intros [H | H]; congruence].
  - split; [auto | reflexivity].
Qed.

(** ** Integers in a REAL column *)

Lemma round53_exact n : Z.abs n < 2 ^ 53 -> round53 n = n.
Proof.
  intros H. unfold round53.
  destruct (Z.leb_spec (Z.log2 (Z.abs n) + 1) 53) as [_ | Hbits]; [reflexivity |].
  exfalso.
  assert (0 < Z.abs n) as Hpos.
  { destruct (Z.eq_dec (Z.abs n) 0) as [E | E]; [rewrite E in Hbits; cbn in Hbits; lia |].
    pose proof (Z.abs_nonneg n). lia. }
  assert (Z.log2 (Z.abs n) < 53) by (apply Z.log2_lt_pow2; lia).
  lia.
Qed.

Lemma round53_sign n : 0 <= round53 n <-> 0 <= n.
Proof.
  unfold round53.
  destruct (Z.leb_spec (Z.log2 (Z.abs n) + 1) 53) as [_ | Hbits]; [reflexivity |].
  set (a := Z.abs n) in *. set (shift := Z.log2 a + 1 - 53) in *.
  assert (0 < shift) by (unfold shift; lia).
  assert (0 < a) as Hpos.
  { destruct (Z.eq_dec a 0) as [E | E]; [rewrite E in Hbits; cbn in Hbits; lia |].
    pose proof (Z.abs_nonneg n). unfold a in *. lia. }
  assert (1 <= Z.shiftr a shift) as Hq.
  { rewrite Z.shiftr_div_pow2 by lia.
    apply Z.div_le_lower_bound; [apply Z.pow_pos_nonneg; lia |].
    rewrite Z.mul_1_r.
    transitivity (2 ^ Z.log2 a); [apply Z.pow_le_mono_r; unfold shift; lia |].
    apply Z.log2_spec. exact Hpos. }
  set (q := Z.shiftr a shift) in *.
  assert (Hx : forall x, 0 < x -> (0 <= Z.sgn n * Z.shiftl x shift <-> 0 <= n)).
  { intros x Hxpos.
    assert (0 < Z.shiftl x shift).
    { rewrite Z.shiftl_mul_pow2 by lia.
      apply Z.mul_pos_pos; [assumption | apply Z.pow_pos_nonneg; lia]. }
    destruct n as [|p|p]; cbn [Z.sgn]; unfold a in *; try (cbn in Hpos; lia); nia. }
  match goal with
  | |- context [if ?c then _ else _] => destruct c
  end; apply Hx; lia.
Qed.

Lemma real_of_int_nonneg n : (0 <= real_of_int n)%Qc <-> 0 <= n.
Proof.
  rewrite <- round53_sign. unfold real_of_int, Qcle. cbn [this Q2Qc].
  rewrite Qred_le. change 0%Q with (inject_Z 0). rewrite <- Zle_Qle. reflexivity.
Qed.

Lemma real_of_int_exact n : Z.abs n < 2 ^ 53 -> real_of_int n = Q2Qc (inject_Z n).
Proof. intros H. unfold real_of_int. rewrite (round53_exact n H). reflexivity. Qed.

(** ** The ingestion path *)

Section Ingestion.

Variable decode : string -> result string.
Variable json_loads : string -> result json.
Variable json_dumps : json -> string.
Variable sqlite_real : string -> option Qc.

Local Abbreviation on_message := (on_mqtt_message decode json_loads json_dumps sqlite_real).
Local Abbreviation status_handler := (handle_device_status json_dumps).

(** *** Routing *)

Lemma route_status clk msg text p w :
  decode (payload msg) = Ok text -> json_loads text = Ok p ->
  contains "status" (topic msg) = true ->
  on_message clk msg w
  = guarded (status_handler clk (topic_device_id (topic msg)) p) w.
Proof.
  intros Hd Hp Hs. unfold on_mqtt_message, guarded, try_except, bind, lift.
  rewrite Hd, Hp, Hs. reflexivity.
Qed.

Lemma route_sensor clk msg text p w :
  decode (payload msg) = Ok text -> json_loads text = Ok p ->
  contains "status" (topic msg) = false ->
  contains "sensor" (topic msg) = true ->
  on_message clk msg w
  = guarded (handle_sensor_data clk (topic_device_id (topic msg)) p) w.
Proof.
  intros Hd Hp Hs Hn. unfold on_mqtt_message, guarded, try_except, bind, lift.
  rewrite Hd, Hp, Hs, Hn. reflexivity.
Qed.

Lemma route_energy clk msg text p w :
  decode (payload msg) = Ok text -> json_loads text = Ok p ->
  contains "status" (topic msg) = false ->
  contains "sensor" (topic msg) = false ->
  contains "energy" (topic msg) = true ->
  on_message clk msg w
  = guarded (handle_energy_data sqlite_real clk (topic_device_id (topic msg)) p) w.
Proof.
  intros Hd Hp Hs Hn He. unfold on_mqtt_message, guarded, try_except, bind, lift.
  rewrite Hd, Hp, Hs, Hn, He. reflexivity.
Qed.

Lemma route_none clk msg text p w :
  decode (payload msg) = Ok text -> json_loads text = Ok p ->
  contains "status" (topic msg) = false ->
  contains "sensor" (topic msg) = false ->
  contains "energy" (topic msg) = false ->
  on_message clk msg w = (Ok tt, w).
Proof.
  intros Hd Hp Hs Hn He. unfold on_mqtt_message, try_except, bind, lift.
  rewrite Hd, Hp, Hs, Hn, He. reflexivity.
Qed.

(** *** The handlers on a dict payload *)

(** A handler called without a usable device id does nothing. *)
Lemma handlers_without_id clk device_id p w :
  truthy_id device_id = false ->
  status_handler clk device_id p w = (Ok tt, w)
  /\ handle_sensor_data clk device_id p w = (Ok tt, w)
  /\ handle_energy_data sqlite_real clk device_id p w = (Ok tt, w).
Proof.
  intros H. unfold handle_device_status, handle_sensor_data, handle_energy_data.
  rewrite H. destruct device_id; auto.
Qed.

Lemma status_handler_dict clk id items status w :
  id <> "" ->
  sql_bind "0" (match dict_lookup "status" items with
                | Some v => v
                | None => JStr "online"
                end) = Ok status ->
  status_handler clk (Some id) (JObj items) w
  = (Ok tt,
     {| devices := <[id := JObj items]> (devices w);
        sensor_data := sensor_data w;
        db := sql_insert_log id "status_update" (json_dumps (JObj items))
                (CURRENT_TIMESTAMP clk)
                (sql_update_device status (CURRENT_TIMESTAMP clk) id (db w));
        emitted := emitted w ++
          [("device_update", JObj [("device_id", JStr id); ("data", JObj items)])];
        printed := printed w;
        mqtt_client := mqtt_client w |}).
Proof.
  intros Hid Hb. unfold handle_device_status.
  rewrite (truthy_id_Some id Hid).
  unfold bind, lift, devices_setitem, sqlite3_connect, py_get. cbn.
  rewrite Hb. reflexivity.
Qed.

Lemma sensor_handler_motion clk id items w :
  id <> "" ->
  truthy (match dict_lookup "motion_detected" items with
          | Some v => v
          | None => JNull
          end) = true ->
  handle_sensor_data clk (Some id) (JObj items) w
  = (Ok tt,
     {| devices := devices w;
        sensor_data := <[id := JObj items]> (sensor_data w);
        db := sql_insert_security id "motion_detected" "Motion detected by sensor"
                (CURRENT_TIMESTAMP clk) (db w);
        emitted := emitted w ++
          [("security_alert",
            JObj [("sensor_id", JStr id); ("event", JStr "motion_detected");
                  ("timestamp", JStr (datetime_now_isoformat clk))])];
        printed := printed w;
        mqtt_client := mqtt_client w |}).
Proof.
  intros Hid Hm. unfold handle_sensor_data.
  rewrite (truthy_id_Some id Hid).
  unfold bind, lift, sensor_data_setitem, py_get. cbn.
  rewrite Hm. reflexivity.
Qed.

Lemma sensor_handler_quiet clk id items w :
  id <> "" ->
  truthy (match dict_lookup "motion_detected" items with
          | Some v => v
          | None => JNull
          end) = false ->
  handle_sensor_data clk (Some id) (JObj items) w
  = (Ok tt,
     {| devices := devices w;
        sensor_data := <[id := JObj items]> (sensor_data w);
        db := db w; emitted := emitted w; printed := printed w;
        mqtt_client := mqtt_client w |}).
Proof.
  intros Hid Hm. unfold handle_sensor_data.
  rewrite (truthy_id_Some id Hid).
  unfold bind, lift, sensor_data_setitem, py_get. cbn.
  rewrite Hm. reflexivity.
Qed.

Lemma energy_handler_absent clk id items w :
  id <> "" ->
  dict_lookup "power_watts" items = None ->
  handle_energy_data sqlite_real clk (Some id) (JObj items) w = (Ok tt, w).
Proof.
  intros Hid Hn. unfold handle_energy_data.
  rewrite (truthy_id_Some id Hid).
  unfold bind, lift, py_in. cbn. rewrite Hn.
  rewrite bool_decide_eq_false_2; [reflexivity | intros [? ?]; discriminate].
Qed.

Lemma energy_handler_present clk id items v power w :
  id <> "" ->
  dict_lookup "power_watts" items = Some v ->
  sql_bind "1" v = Ok power ->
  handle_energy_data sqlite_real clk (Some id) (JObj items) w
  = (Ok tt,
     {| devices := devices w; sensor_data := sensor_data w;
        db := sql_insert_energy sqlite_real id power (CURRENT_TIMESTAMP clk) (db w);
        emitted := emitted w; printed := printed w;
        mqtt_client := mqtt_client w |}).
Proof.
  intros Hid Hv Hb. unfold handle_energy_data.
  rewrite (truthy_id_Some id Hid).
  unfold bind, lift, py_in, py_getitem, sqlite3_connect. cbn. rewrite Hv.
  rewrite bool_decide_eq_true_2 by eauto. cbn. rewrite Hb. reflexivity.
Qed.

Lemma energy_handler_unbound clk id items v e w :
  id <> "" ->
  dict_lookup "power_watts" items = Some v ->
  sql_bind "1" v = Raise e ->
  handle_energy_data sqlite_real clk (Some id) (JObj items) w = (Raise e, w).
Proof.
  intros Hid Hv Hb. unfold handle_energy_data.
  rewrite (truthy_id_Some id Hid).
  unfold bind, lift, py_in, py_getitem, sqlite3_connect. cbn. rewrite Hv.
  rewrite bool_decide_eq_true_2 by eauto. cbn. rewrite Hb. reflexivity.
Qed.


Lemma on_message_returns_none clk msg w : fst (on_message clk msg w) = Ok tt.
Proof.
  unfold on_mqtt_message, try_except.
  match goal with |- context [match ?c w with _ => _ end] => destruct (c w) as [[[]|e] w'] end;
    reflexivity.
Qed.

Lemma on_message_decode_error clk msg e w :
  decode (payload msg) = Raise e ->
  on_message clk msg w = (Ok tt, after_error e w).
Proof.
  intros H. unfold on_mqtt_message, try_except, bind, lift. rewrite H. reflexivity.
Qed.

Lemma on_message_parse_error clk msg text e w :
  decode (payload msg) = Ok text -> json_loads text = Raise e ->
  on_message clk msg w = (Ok tt, after_error e w).
Proof.
  intros Hd H. unfold on_mqtt_message, try_except, bind, lift.
  rewrite Hd, H. reflexivity.
Qed.

Lemma on_message_without_id clk msg text p w :
  decode (payload msg) = Ok text -> json_loads text = Ok p ->
  truthy_id (topic_device_id (topic msg)) = false ->
  on_message clk msg w = (Ok tt, w).
Proof.
  intros Hd Hp Hid.
  destruct (handlers_without_id clk _ p w Hid) as (Hs & Hn & He).
  destruct (contains "status" (topic msg)) eqn:Cs.
  { rewrite (route_status clk msg text p w Hd Hp Cs).
    unfold guarded, try_except. rewrite Hs. reflexivity. }
  destruct (contains "sensor" (topic msg)) eqn:Cn.
  { rewrite (route_sensor clk msg text p w Hd Hp Cs Cn).
    unfold guarded, try_except. rewrite Hn. reflexivity. }
  destruct (contains "energy" (topic msg)) eqn:Ce.
  { rewrite (route_energy clk msg text p w Hd Hp Cs Cn Ce).
    unfold guarded, try_except. rewrite He. reflexivity. }
  apply (route_none clk msg text p w Hd Hp Cs Cn Ce).
Qed.

(** A status message with a dict payload whose status can be stored. *)
Lemma ingest_status clk msg text items id status w :
  decode (payload msg) = Ok text -> json_loads text = Ok (JObj items) ->
  has_substring "status" (topic msg) ->
  topic_device_id (topic msg) = Some id -> id <> "" ->
  sql_bind "0" (match dict_lookup "status" items with
                | Some v => v
                | None => JStr "online"
                end) = Ok status ->
  on_message clk msg w
  = (Ok tt,
     {| devices := <[id := JObj items]> (devices w);
        sensor_data := sensor_data w;
        db := sql_insert_log id "status_update" (json_dumps (JObj items))
                (CURRENT_TIMESTAMP clk)
                (sql_update_device status (CURRENT_TIMESTAMP clk) id (db w));
        emitted := emitted w ++
          [("device_update", JObj [("device_id", JStr id); ("data", JObj items)])];
        printed := printed w;
        mqtt_client := mqtt_client w |}).
Proof.
  intros Hd Hp Hs Hid Hne Hb. apply contains_spec in Hs.
  rewrite (route_status clk msg text _ w Hd Hp Hs), Hid.
  unfold guarded, try_except.
  rewrite (status_handler_dict clk id items status w Hne Hb). reflexivity.
Qed.



(** *** Classification *)

(** C4: the class of a message is decided by the first of the
    substrings [status], [sensor], [energy] that occurs in the topic, in
    that order; a topic with none of them is not handled at all; a topic
    with both [status] and [sensor] goes to the status handler. *)
Theorem classification_first_match_wins clk msg text p w :
  decode (payload msg) = Ok text -> json_loads text = Ok p ->
  let device_id := topic_device_id (topic msg) in
  (has_substring "status" (topic msg) ->
     on_message clk msg w = guarded (status_handler clk device_id p) w)
  /\ (~ has_substring "status" (topic msg) ->
      has_substring "sensor" (topic msg) ->
      on_message clk msg w = guarded (handle_sensor_data clk device_id p) w)
  /\ (~ has_substring "status" (topic msg) ->
      ~ has_substring "sensor" (topic msg) ->
      has_substring "energy" (topic msg) ->
      on_message clk msg w = guarded (handle_energy_data sqlite_real clk device_id p) w)
  /\ (~ has_substring "status" (topic msg) ->
      ~ has_substring "sensor" (topic msg) ->
      ~ has_substring "energy" (topic msg) ->
      on_message clk msg w = (Ok tt, w))
  /\ (has_substring "status" (topic msg) ->
      has_substring "sensor" (topic msg) ->
      on_message clk msg w = guarded (status_handler clk device_id p) w).
Proof.
  intros Hd Hp device_id. subst device_id.
  repeat split; rewrite <- ?contains_false, <- ?contains_spec; intros.
  - eapply route_status; eassumption.
  - eapply route_sensor; eassumption.
  - eapply route_energy; eassumption.
  - eapply route_none; eassumption.
  - eapply route_status; eassumption.
Qed.

(** *** Status messages *)




(** *** Sensor messages *)

Lemma ingest_sensor clk msg text items id w :
  decode (payload msg) = Ok text -> json_loads text = Ok (JObj items) ->
  ~ has_substring "status" (topic msg) -> has_substring "sensor" (topic msg) ->
  topic_device_id (topic msg) = Some id ->
  on_message clk msg w
  = guarded (handle_sensor_data clk (Some id) (JObj items)) w.
Proof.
  intros Hd Hp Hs Hn Hid. apply contains_false in Hs. apply contains_spec in Hn.
  rewrite (route_sensor clk msg text _ w Hd Hp Hs Hn), Hid. reflexivity.
Qed.

(** C6: a sensor message with a non-empty device id whose payload has a
    truthy motion_detected field adds one motion_detected row to the
    security events and emits one security_alert event with the sensor
    id, the event and a timestamp; without the field, or with a falsy
    one, no security event is added and nothing is emitted; the device
    log is not written in either case. *)
Theorem sensor_message_effects clk msg text items id w :
  decode (payload msg) = Ok text -> json_loads text = Ok (JObj items) ->
  ~ has_substring "status" (topic msg) -> has_substring "sensor" (topic msg) ->
  topic_device_id (topic msg) = Some id -> id <> "" ->
  let motion := match dict_lookup "motion_detected" items with
                | Some v => v
                | None => JNull
                end in
  let w' := snd (on_message clk msg w) in
  fst (on_message clk msg w) = Ok tt
  /\ sensor_data w' = <[id := JObj items]> (sensor_data w)
  /\ t_device_logs (db w') = t_device_logs (db w)
  /\ (truthy motion = true ->
        t_security_events (db w')
        = t_security_events (db w) ++
          [{| s_sensor_id := id; s_event_type := "motion_detected";
              s_description := "Motion detected by sensor";
              s_timestamp := CURRENT_TIMESTAMP clk |}]
        /\ emitted w'
           = emitted w ++
             [("security_alert",
               JObj [("sensor_id", JStr id); ("event", JStr "motion_detected");
                     ("timestamp", JStr (datetime_now_isoformat clk))])])
  /\ (truthy motion = false ->
        t_security_events (db w') = t_security_events (db w)
        /\ emitted w' = emitted w).
Proof.
  intros Hd Hp Hs Hn Hid Hne motion w'. subst w'.
  rewrite (ingest_sensor clk msg text items id w Hd Hp Hs Hn Hid).
  unfold guarded, try_except.
  destruct (truthy motion) eqn:Hm; subst motion.
  - rewrite (sensor_handler_motion clk id items w Hne Hm). cbn.
    repeat split; intros; discriminate.
  - rewrite (sensor_handler_quiet clk id items w Hne Hm). cbn.
    repeat split; intros; discriminate.
Qed.

(** *** Energy messages *)

Lemma ingest_energy clk msg text items id w :
  decode (payload msg) = Ok text -> json_loads text = Ok (JObj items) ->
  ~ has_substring "status" (topic msg) -> ~ has_substring "sensor" (topic msg) ->
  has_substring "energy" (topic msg) ->
  topic_device_id (topic msg) = Some id ->
  on_message clk msg w
  = guarded (handle_energy_data sqlite_real clk (Some id) (JObj items)) w.
Proof.
  intros Hd Hp Hs Hn He Hid.
  apply contains_false in Hs, Hn. apply contains_spec in He.
  rewrite (route_energy clk msg text _ w Hd Hp Hs Hn He), Hid. reflexivity.
Qed.

(** C8 (as the code has it): an energy message with a non-empty device id
    and no power_watts field is accepted and adds no row.  With a
    power_watts field of a value that SQLite binds, it adds one row, which
    holds that value as the REAL column stores it: a float as it is, an
    int as the nearest float (the same number up to 53 bits), a str as
    the number it reads as, or as it is when it reads as none.  With a
    value that SQLite does not bind (a list, a dict, an int beyond 64
    bits) it adds no row and the failure is printed.  In every case the
    in-memory dicts are as before and nothing is emitted. *)
Theorem energy_message_effects clk msg text items id w :
  decode (payload msg) = Ok text -> json_loads text = Ok (JObj items) ->
  ~ has_substring "status" (topic msg) -> ~ has_substring "sensor" (topic msg) ->
  has_substring "energy" (topic msg) ->
  topic_device_id (topic msg) = Some id -> id <> "" ->
  let w' := snd (on_message clk msg w) in
  (dict_lookup "power_watts" items = None ->
     on_message clk msg w = (Ok tt, w))
  /\ (forall v power,
        dict_lookup "power_watts" items = Some v -> sql_bind "1" v = Ok power ->
        fst (on_message clk msg w) = Ok tt
        /\ t_energy_consumption (db w')
           = t_energy_consumption (db w) ++
             [{| e_device_id := id;
                 e_power_watts := real_affinity sqlite_real power;
                 e_timestamp := CURRENT_TIMESTAMP clk |}]
        /\ (forall q, v = JFloat q -> real_affinity sqlite_real power = SReal q)
        /\ (forall n, v = JInt n ->
              real_affinity sqlite_real power = SReal (real_of_int n)
              /\ (Z.abs n < 2 ^ 53 -> real_of_int n = Q2Qc (inject_Z n)))
        /\ (forall s, v = JStr s ->
              real_affinity sqlite_real power
              = match sqlite_real s with
                | Some q => SReal q
                | None => SText s
                end)
        /\ t_devices (db w') = t_devices (db w)
        /\ t_device_logs (db w') = t_device_logs (db w)
        /\ t_security_events (db w') = t_security_events (db w)
        /\ devices w' = devices w
        /\ sensor_data w' = sensor_data w
        /\ emitted w' = emitted w
        /\ printed w' = printed w)
  /\ (forall v e,
        dict_lookup "power_watts" items = Some v -> sql_bind "1" v = Raise e ->
        on_message clk msg w = (Ok tt, after_error e w)).
Proof.
  intros Hd Hp Hs Hn He Hid Hne w'. subst w'.
  rewrite (ingest_energy clk msg text items id w Hd Hp Hs Hn He Hid).
  unfold guarded, try_except. split_and!.
  - intros Habs. rewrite (energy_handler_absent clk id items w Hne Habs).
    reflexivity.
  - intros v power Hv Hb.
    rewrite (energy_handler_present clk id items v power w Hne Hv Hb). cbn.
    split_and!; try reflexivity.
    + intros q ->. cbn in Hb. injection Hb as <-. reflexivity.
    + intros n ->. cbn in Hb. case_bool_decide; [| discriminate].
      injection Hb as <-. split; [reflexivity | apply real_of_int_exact].
    + intros s ->. cbn in Hb. injection Hb as <-. reflexivity.
  - intros v e Hv Hb.
    rewrite (energy_handler_unbound clk id items v e w Hne Hv Hb). reflexivity.
Qed.

(** C9 (as the code has it): the row that an energy message adds holds
    the payload's power_watts value as the REAL column stores it, of
    either sign: the hub checks no range.  For a payload value that is a
    number, the stored value is non-negative exactly when the payload
    value is, and the rows of the table are all non-negative after the
    message exactly when they were before and the payload value is not
    negative. *)
Theorem energy_row_keeps_sign clk msg text items id v power w :
  decode (payload msg) = Ok text -> json_loads text = Ok (JObj items) ->
  ~ has_substring "status" (topic msg) -> ~ has_substring "sensor" (topic msg) ->
  has_substring "energy" (topic msg) ->
  topic_device_id (topic msg) = Some id -> id <> "" ->
  dict_lookup "power_watts" items = Some v -> sql_bind "1" v = Ok power ->
  let w' := snd (on_message clk msg w) in
  t_energy_consumption (db w')
  = t_energy_consumption (db w) ++
    [{| e_device_id := id; e_power_watts := real_affinity sqlite_real power;
        e_timestamp := CURRENT_TIMESTAMP clk |}]
  /\ (is_number v ->
      (nonneg_power (real_affinity sqlite_real power) <-> payload_nonneg v)
      /\ (Forall (fun r => nonneg_power (e_power_watts r))
            (t_energy_consumption (db w')) <->
          Forall (fun r => nonneg_power (e_power_watts r))
            (t_energy_consumption (db w))
          /\ payload_nonneg v)).
Proof.
  intros Hd Hp Hs Hn He Hid Hne Hv Hb w'. subst w'.
  rewrite (ingest_energy clk msg text items id w Hd Hp Hs Hn He Hid).
  unfold guarded, try_except.
  rewrite (energy_handler_present clk id items v power w Hne Hv Hb). cbn.
  split; [reflexivity |].
  intros Hnum.
  assert (Hsign : nonneg_power (real_affinity sqlite_real power) <-> payload_nonneg v).
  { destruct v; try contradiction; cbn in Hb.
    - case_bool_decide; [| discriminate]. injection Hb as <-. cbn.
      apply real_of_int_nonneg.
    - injection Hb as <-. reflexivity. }
  split; [exact Hsign |].
  rewrite Forall_app, Forall_singleton. cbn. rewrite Hsign. reflexivity.
Qed.

(** *** Messages without a device id, and failures *)

(** C10: when the topic has no second segment, or an empty one, the
    message changes neither the in-memory dicts nor the store, emits
    nothing and publishes nothing, whatever its class; with a payload
    that parses, the call is a plain no-op: nothing is raised or
    reported and the whole state is as before. *)
Theorem no_device_id_no_effect clk msg w :
  topic_device_id (topic msg) = None \/ topic_device_id (topic msg) = Some "" ->
  let w' := snd (on_message clk msg w) in
  fst (on_message clk msg w) = Ok tt
  /\ devices w' = devices w
  /\ sensor_data w' = sensor_data w
  /\ db w' = db w
  /\ emitted w' = emitted w
  /\ mqtt_client w' = mqtt_client w
  /\ (forall text p,
        decode (payload msg) = Ok text -> json_loads text = Ok p ->
        on_message clk msg w = (Ok tt, w)).
Proof.
  intros Hid%truthy_id_false w'. subst w'.
  destruct (decode (payload msg)) as [text|e] eqn:Hd.
  - destruct (json_loads text) as [p|e] eqn:Hp.
    + rewrite (on_message_without_id clk msg text p w Hd Hp Hid). cbn.
      split_and!; reflexivity.
    + rewrite (on_message_parse_error clk msg text e w Hd Hp). cbn.
      split_and!; try reflexivity. intros text' p' [= <-]. congruence.
  - rewrite (on_message_decode_error clk msg e w Hd). cbn.
    split_and!; try reflexivity. intros; discriminate.
Qed.

(** C3 (as the code has it): [on_mqtt_message] returns nothing to its
    caller and never raises.  A payload that cannot be decoded or parsed
    changes nothing but the printed output, which gets one error line.
    A message whose payload parses and whose topic has none of the
    three substrings, or no second segment, or an empty one, is dropped:
    the state, the printed output included, is as before. *)
Theorem failures_are_printed_or_dropped clk msg w :
  fst (on_message clk msg w) = Ok tt
  /\ (forall e, decode (payload msg) = Raise e ->
        on_message clk msg w = (Ok tt, after_error e w))
  /\ (forall text e,
        decode (payload msg) = Ok text -> json_loads text = Raise e ->
        on_message clk msg w = (Ok tt, after_error e w))
  /\ (forall text p,
        decode (payload msg) = Ok text -> json_loads text = Ok p ->
        (~ has_substring "status" (topic msg)
         /\ ~ has_substring "sensor" (topic msg)
         /\ ~ has_substring "energy" (topic msg))
        \/ topic_device_id (topic msg) = None
        \/ topic_device_id (topic msg) = Some "" ->
        on_message clk msg w = (Ok tt, w)).
Proof.
  split; [apply on_message_returns_none |].
  split; [intros e; apply on_message_decode_error |].
  split; [intros text e; apply on_message_parse_error |].
  intros text p Hd Hp [(Hs & Hn & He) | Hid].
  - apply contains_false in Hs, Hn, He. eapply route_none; eassumption.
  - apply truthy_id_false in Hid. eapply on_message_without_id; eassumption.
Qed.

End Ingestion.

(** ** Batch execution of translated actions *)

Section Batch.

Variable json_loads : string -> result json.
Variable json_dumps : json -> string.
Variable py_repr : json -> string.
Variable publish_check : string -> string -> option exn.

Local Abbreviation execute := (execute_action json_dumps py_repr publish_check).
Local Abbreviation outcome := (action_outcome json_dumps py_repr publish_check).
Local Abbreviation messages := (published_by json_dumps py_repr publish_check).

Lemma execute_action_outcome action sent w :
  mqtt_client w = Some sent ->
  execute action w
  = match outcome action with
    | Ok None => (Ok tt, w)
    | Ok (Some m) => (Ok tt, with_published (sent ++ [m]) w)
    | Raise e => (Raise e, w)
    end.
Proof.
  intros Hc. unfold execute_action, action_outcome, bind, lift.
  destruct action; try reflexivity. cbn.
  destruct (truthy _ && truthy _); [| reflexivity].
  unfold mqtt_publish. rewrite Hc.
  destruct (publish_check _ _); reflexivity.
Qed.

Lemma with_published_id sent w : mqtt_client w = Some sent -> with_published sent w = w.
Proof. destruct w. cbn. intros ->. reflexivity. Qed.

Lemma messages_cons a actions :
  messages (a :: actions)
  = match outcome a with
    | Ok (Some m) => m :: messages actions
    | _ => messages actions
    end.
Proof.
  unfold published_by. cbn. destruct (outcome a) as [[m|]|e]; reflexivity.
Qed.

(** A run in which no action raises hands every message to the client. *)
Lemma for_each_all_ok actions : forall sent w,
  mqtt_client w = Some sent ->
  Forall (fun a => exists m, outcome a = Ok m) actions ->
  for_each execute actions w
  = (Ok tt, with_published (sent ++ messages actions) w).
Proof.
  induction actions as [|a actions IH]; intros sent w Hc Hall.
  - cbn. rewrite app_nil_r, with_published_id by exact Hc. reflexivity.
  - apply Forall_cons in Hall as [[m Ha] Hall].
    cbn [for_each]. unfold bind at 1.
    rewrite (execute_action_outcome a sent w Hc), Ha.
    rewrite messages_cons, Ha.
    destruct m as [m|].
    + rewrite (IH (sent ++ [m]) (with_published (sent ++ [m]) w) eq_refl Hall).
      cbn. rewrite <- app_assoc. reflexivity.
    + rewrite (IH sent w Hc Hall). reflexivity.
Qed.

(** The first action that raises ends the run. *)
Lemma for_each_stops pre a post e sent w :
  mqtt_client w = Some sent ->
  Forall (fun a => exists m, outcome a = Ok m) pre ->
  outcome a = Raise e ->
  for_each execute (pre ++ a :: post) w
  = (Raise e, with_published (sent ++ messages pre) w).
Proof.
  revert sent w. induction pre as [|b pre IH]; intros sent w Hc Hall Ha.
  - cbn [app for_each]. unfold bind.
    rewrite (execute_action_outcome a sent w Hc), Ha.
    cbn. rewrite app_nil_r, with_published_id by exact Hc. reflexivity.
  - apply Forall_cons in Hall as [[m Hb] Hall].
    cbn [app for_each]. unfold bind at 1.
    rewrite (execute_action_outcome b sent w Hc), Hb.
    rewrite messages_cons, Hb.
    destruct m as [m|].
    + rewrite (IH (sent ++ [m]) (with_published (sent ++ [m]) w) eq_refl Hall Ha).
      cbn. rewrite <- app_assoc. reflexivity.
    + rewrite (IH sent w Hc Hall Ha). reflexivity.
Qed.

(** [ai_command] as far as the loop, for a translation that parses. *)
Lemma ai_command_loop key generate_content req resp text actions w :
  key <> "" ->
  generate_content
    (prompt_text py_repr
       (match dict_lookup "command" req with
        | Some v => v
        | None => JStr ""
        end)
       (device_context (t_devices (db w)))) = Ok text ->
  json_loads text = Ok (JObj resp) ->
  dict_lookup "actions" resp = Some (JArr actions) ->
  ai_command json_loads json_dumps py_repr publish_check
    (Some key) generate_content (JObj req) w
  = match for_each execute actions w with
    | (Ok _, w') =>
        (Ok (JObj [("success", JBool true);
                   ("response", match dict_lookup "response" resp with
                                | Some v => v
                                | None => JStr "Commands executed"
                                end);
                   ("actions", JArr actions)]), w')
    | (Raise e, w') =>
        (Ok (JObj [("success", JBool false); ("error", JStr (str_exn e))]), w')
    end.
Proof.
  intros Hkey Hgen Hload Hacts.
  unfold ai_command.
  cbv beta iota zeta delta [try_except bind lift sqlite3_connect ret py_get py_iter].
  rewrite (truthy_id_Some key Hkey). cbv beta iota delta [negb].
  rewrite Hgen, Hload, Hacts.
  destruct (for_each execute actions w) as [[[]|e] w']; reflexivity.
Qed.

(** C1 (as the code has it): the translated actions are executed in
    order, each action with a truthy device id and command being handed
    to the MQTT client for the control topic of its device.  When no
    action raises, all of them have been handed over and the response is
    a success carrying the response text and the action list as
    translated.  The first action that raises ends the loop: the actions
    after it are not executed, and the response is a failure carrying the
    text of that exception.  The response has no executed count and no
    list of failures. *)
Theorem batch_stops_at_first_failure key generate_content req resp text
    actions sent w :
  key <> "" ->
  generate_content
    (prompt_text py_repr
       (match dict_lookup "command" req with
        | Some v => v
        | None => JStr ""
        end)
       (device_context (t_devices (db w)))) = Ok text ->
  json_loads text = Ok (JObj resp) ->
  dict_lookup "actions" resp = Some (JArr actions) ->
  mqtt_client w = Some sent ->
  let run := ai_command json_loads json_dumps py_repr publish_check
               (Some key) generate_content (JObj req) w in
  (Forall (fun a => exists m, outcome a = Ok m) actions ->
     run = (Ok (JObj [("success", JBool true);
                      ("response", match dict_lookup "response" resp with
                                   | Some v => v
                                   | None => JStr "Commands executed"
                                   end);
                      ("actions", JArr actions)]),
            with_published (sent ++ messages actions) w))
  /\ (forall pre a post e,
        actions = pre ++ a :: post ->
        Forall (fun a => exists m, outcome a = Ok m) pre ->
        outcome a = Raise e ->
        run = (Ok (JObj [("success", JBool false);
                         ("error", JStr (str_exn e))]),
               with_published (sent ++ messages pre) w)).
Proof.
  intros Hkey Hgen Hload Hacts Hc run. subst run.
  rewrite (ai_command_loop key generate_content req resp text actions w
             Hkey Hgen Hload Hacts).
  split.
  - intros Hall. rewrite (for_each_all_ok actions sent w Hc Hall). reflexivity.
  - intros pre a post e -> Hall Ha.
    rewrite (for_each_stops pre a post e sent w Hc Hall Ha). reflexivity.
Qed.

End Batch.

(** ** The theorems at work on concrete messages *)

Example ingest_light1 :
  fst (ingest sample_clock light1_status home) = Ok tt
  /\ t_device_logs (db (snd (ingest sample_clock light1_status home)))
     = [{| l_device_id := "light1"; l_action := "status_update";
           l_value := sample_json_dumps status_online_80;
           l_timestamp := "2024-01-01 00:00:00" |}].
Proof. vm_compute. split; reflexivity. Qed.

(** A status payload that is a list, not a dict: the in-memory entry is
    replaced before the handler fails, nothing is written or emitted, and
    the failure is printed. *)
Example status_payload_not_a_dict :
  guarded (handle_device_status sample_json_dumps sample_clock
             (Some "living_room_light") (JArr [])) started
  = (Ok tt,
     {| devices := <["living_room_light" := JArr []]> ∅;
        sensor_data := ∅; db := db started; emitted := [];
        printed := ["Error processing MQTT message: 'list' object has no attribute 'get'"];
        mqtt_client := Some [] |}).
Proof. vm_compute. reflexivity. Qed.

Ltac in_topic := first [apply contains_spec | apply contains_false]; reflexivity.


(** A topic with both [sensor] and [status] goes to the status handler. *)
Lemma classification_first_match_wins_witness :
  ingest sample_clock (message "smarthome/sensor_hall/status" status_online_80) started
  = guarded (handle_device_status sample_json_dumps sample_clock
               (Some "sensor_hall") status_online_80) started.
Proof.
  destruct (classification_first_match_wins sample_decode sample_json_loads
              sample_json_dumps sample_real sample_clock
              (message "smarthome/sensor_hall/status" status_online_80)
              (sample_json_dumps status_online_80) status_online_80 started
              eq_refl eq_refl) as (_ & _ & _ & _ & H).
  apply H; in_topic.
Defined.







Lemma sensor_message_effects_witness :
  t_security_events (db (snd (ingest sample_clock motion1_sensor started)))
  = [{| s_sensor_id := "motion1"; s_event_type := "motion_detected";
        s_description := "Motion detected by sensor";
        s_timestamp := "2024-01-01 00:00:00" |}]
  /\ emitted (snd (ingest sample_clock motion1_sensor started))
     = [("security_alert",
         JObj [("sensor_id", JStr "motion1"); ("event", JStr "motion_detected");
               ("timestamp", JStr "2024-01-01T00:00:00.000000")])]
  /\ t_device_logs (db (snd (ingest sample_clock motion1_sensor started))) = [].
Proof.
  destruct (sensor_message_effects sample_decode sample_json_loads sample_json_dumps sample_real
              sample_clock motion1_sensor
              (sample_json_dumps (JObj [("motion_detected", JBool true)]))
              [("motion_detected", JBool true)] "motion1" started)
    as (_ & _ & Hlog & Hmotion & _);
    [reflexivity | reflexivity | in_topic | in_topic | reflexivity | discriminate |].
  destruct (Hmotion eq_refl) as [Hsec Hem].
  split; [exact Hsec |]. split; [exact Hem | exact Hlog].
Defined.

Lemma energy_message_effects_witness :
  t_energy_consumption (db (snd (ingest sample_clock fan_energy started)))
  = [{| e_device_id := "living_room_fan";
        e_power_watts := SReal (Q2Qc (inject_Z 45));
        e_timestamp := "2024-01-01 00:00:00" |}]
  /\ emitted (snd (ingest sample_clock fan_energy started)) = []
  /\ ingest sample_clock
       (message "smarthome/living_room_fan/energy"
          (JObj [("timestamp", JStr "2024-01-01T00:00:00")])) started
     = (Ok tt, started).
Proof.
  destruct (energy_message_effects sample_decode sample_json_loads sample_json_dumps
              sample_real sample_clock fan_energy
              (sample_json_dumps (JObj [("power_watts", JInt 45)]))
              [("power_watts", JInt 45)] "living_room_fan" started)
    as (_ & Hpresent & _);
    [reflexivity | reflexivity | in_topic | in_topic | in_topic | reflexivity
    | discriminate |].
  destruct (Hpresent (JInt 45) (SInt 45) eq_refl eq_refl)
    as (_ & Hrow & _ & _ & _ & _ & _ & _ & _ & _ & Hem & _).
  split; [exact Hrow |]. split; [exact Hem |].
  apply (energy_message_effects sample_decode sample_json_loads sample_json_dumps
           sample_real sample_clock
           (message "smarthome/living_room_fan/energy"
              (JObj [("timestamp", JStr "2024-01-01T00:00:00")]))
           (sample_json_dumps (JObj [("timestamp", JStr "2024-01-01T00:00:00")]))
           [("timestamp", JStr "2024-01-01T00:00:00")] "living_room_fan" started);
    [reflexivity | reflexivity | in_topic | in_topic | in_topic | reflexivity
    | discriminate | reflexivity].
Defined.

(** C8: an energy message whose payload has a power_watts field, here an
    empty list, adds no row: the value cannot be bound, and the failure is
    printed. *)
Lemma unbindable_power_adds_no_row :
  loads_more (payload (message "smarthome/living_room_fan/energy"
                         (JObj [("power_watts", JArr [])])))
  = Ok (JObj [("power_watts", JArr [])])
  /\ dict_lookup "power_watts" [("power_watts", JArr [])] = Some (JArr [])
  /\ t_energy_consumption
       (db (snd (ingest_more sample_clock
                   (message "smarthome/living_room_fan/energy"
                      (JObj [("power_watts", JArr [])])) started)))
     = t_energy_consumption (db started)
  /\ t_energy_consumption (db started) = []
  /\ printed (snd (ingest_more sample_clock
                     (message "smarthome/living_room_fan/energy"
                        (JObj [("power_watts", JArr [])])) started))
     = ["Error processing MQTT message: Error binding parameter 1 - probably unsupported type."].
Proof. vm_compute. repeat split. Qed.

Lemma energy_row_keeps_sign_witness :
  Forall (fun r => nonneg_power (e_power_watts r))
    (t_energy_consumption (db (snd (ingest sample_clock fan_energy started)))).
Proof.
  destruct (energy_row_keeps_sign sample_decode sample_json_loads sample_json_dumps
              sample_real sample_clock fan_energy
              (sample_json_dumps (JObj [("power_watts", JInt 45)]))
              [("power_watts", JInt 45)] "living_room_fan" (JInt 45) (SInt 45) started)
    as [_ H];
    [reflexivity | reflexivity | in_topic | in_topic | in_topic | reflexivity
    | discriminate | reflexivity | reflexivity |].
  apply (H I). split; [constructor | cbn; lia].
Defined.

(** C9: an energy message with a negative power value is stored: the
    table, empty before, holds a row with power -5.0 afterwards. *)
Lemma negative_power_is_stored :
  t_energy_consumption (db started) = []
  /\ fst (ingest sample_clock negative_energy started) = Ok tt
  /\ t_energy_consumption (db (snd (ingest sample_clock negative_energy started)))
     = [{| e_device_id := "living_room_fan";
           e_power_watts := SReal (Q2Qc (inject_Z (-5)));
           e_timestamp := "2024-01-01 00:00:00" |}]
  /\ ~ Forall (fun r => nonneg_power (e_power_watts r))
         (t_energy_consumption (db (snd (ingest sample_clock negative_energy started)))).
Proof.
  split; [reflexivity |]. split; [vm_compute; reflexivity |].
  split; [vm_compute; reflexivity |].
  intros H.
  assert (E : t_energy_consumption (db (snd (ingest sample_clock negative_energy started)))
              = [{| e_device_id := "living_room_fan";
                    e_power_watts := SReal (Q2Qc (inject_Z (-5)));
                    e_timestamp := "2024-01-01 00:00:00" |}])
    by (vm_compute; reflexivity).
  rewrite E in H. apply Forall_cons in H as [H _]. cbn in H.
  apply (proj1 (Qred_le 0 (inject_Z (-5)))) in H.
  change 0%Q with (inject_Z 0) in H. rewrite <- Zle_Qle in H. lia.
Qed.

Lemma no_device_id_no_effect_witness :
  ingest sample_clock no_segment started = (Ok tt, started)
  /\ db (snd (ingest sample_clock {| topic := "status"; payload := "not json" |} started))
     = db started.
Proof.
  split.
  - destruct (no_device_id_no_effect sample_decode sample_json_loads
                sample_json_dumps sample_real sample_clock no_segment started
                (or_introl eq_refl)) as (_ & _ & _ & _ & _ & _ & H).
    apply (H (sample_json_dumps status_online_80) status_online_80); reflexivity.
  - destruct (no_device_id_no_effect sample_decode sample_json_loads
                sample_json_dumps sample_real sample_clock
                {| topic := "status"; payload := "not json" |} started
                (or_introl eq_refl)) as (_ & _ & _ & H & _).
    exact H.
Defined.

(** C3: the hub's own control message, which it is subscribed to, matches
    none of the three classes and is dropped without any trace: the call
    returns nothing and the state, printed output included, is as before.
    A payload that is no JSON makes the call return the same nothing as a
    well-formed message does; the failure is a printed line only. *)
Lemma failures_are_not_returned :
  contains "status" (topic control_echo) = false
  /\ contains "sensor" (topic control_echo) = false
  /\ contains "energy" (topic control_echo) = false
  /\ ingest sample_clock control_echo started = (Ok tt, started)
  /\ sample_json_loads (payload not_json)
     = Raise (Exn "JSONDecodeError" "Expecting value: line 1 column 1 (char 0)")
  /\ fst (ingest sample_clock not_json started)
     = fst (ingest sample_clock living_room_status started)
  /\ snd (ingest sample_clock not_json started)
     = after_error (Exn "JSONDecodeError" "Expecting value: line 1 column 1 (char 0)")
         started.
Proof. vm_compute. repeat split. Qed.

Lemma batch_stops_at_first_failure_witness :
  run_three
  = (Ok (JObj [("success", JBool false);
               ("error", JStr "Publish topic cannot contain wildcards.")]),
     with_published
       [("smarthome/living_room_fan/control", sample_json_dumps power_on)] started).
Proof.
  destruct (batch_stops_at_first_failure sample_json_loads sample_json_dumps
              sample_json_dumps sample_publish_check "key" translate_three
              [("command", JStr "switch everything on")]
              [("actions",
                JArr [JObj [("device_id", JStr "living_room_fan"); ("command", power_on)];
                      JObj [("device_id", JStr "all+lights"); ("command", power_on)];
                      JObj [("device_id", JStr "kitchen_light"); ("command", power_on)]]);
               ("response", JStr "Done")]
              (sample_json_dumps three_actions)
              [JObj [("device_id", JStr "living_room_fan"); ("command", power_on)];
               JObj [("device_id", JStr "all+lights"); ("command", power_on)];
               JObj [("device_id", JStr "kitchen_light"); ("command", power_on)]]
              [] started)
    as [_ Hstop];
    [discriminate | reflexivity | vm_compute; reflexivity | reflexivity
    | reflexivity |].
  apply (Hstop [JObj [("device_id", JStr "living_room_fan"); ("command", power_on)]]
           (JObj [("device_id", JStr "all+lights"); ("command", power_on)])
           [JObj [("device_id", JStr "kitchen_light"); ("command", power_on)]]
           (Exn "ValueError" "Publish topic cannot contain wildcards.")
           eq_refl).
  - constructor; [eexists; vm_compute; reflexivity | constructor].
  - vm_compute. reflexivity.
Defined.

(** C1: of three translated actions the second raises.  The third, which
    the client would have accepted, is never handed to it: only the first
    message was published.  The response is a failure with the text of the
    exception, and carries neither a count nor a list of failures. *)
Lemma batch_aborts_after_failure :
  fst run_three
  = Ok (JObj [("success", JBool false);
              ("error", JStr "Publish topic cannot contain wildcards.")])
  /\ mqtt_client (snd run_three)
     = Some [("smarthome/living_room_fan/control", sample_json_dumps power_on)]
  /\ action_outcome sample_json_dumps sample_json_dumps sample_publish_check
       (JObj [("device_id", JStr "kitchen_light"); ("command", power_on)])
     = Ok (Some ("smarthome/kitchen_light/control", sample_json_dumps power_on))
  /\ ("smarthome/kitchen_light/control", sample_json_dumps power_on)
       ∉ [("smarthome/living_room_fan/control", sample_json_dumps power_on)].
Proof.
  split; [vm_compute; reflexivity |]. split; [vm_compute; reflexivity |].
  split; [vm_compute; reflexivity |].
  intros H. apply list_elem_of_singleton in H. discriminate H.
Qed.

(** * Further properties of the hub *)

(** ** Topics: building them and taking them apart *)

Lemma split_nonempty sep s : split sep s <> [].
Proof.
  destruct s as [|c s]; cbn; [discriminate |].
  destruct (Ascii.eqb c sep); [discriminate |].
  destruct (split sep s); discriminate.
Qed.

Lemma split_no_sep sep s : has_char sep s = false -> split sep s = [s].
Proof.
  induction s as [|c s IH]; cbn; [reflexivity |].
  intros [Hc Hs]%orb_false_iff. rewrite Hc, (IH Hs). reflexivity.
Qed.

(** [(a + sep + b).split(sep) == a.split(sep) + b.split(sep)] *)
Lemma split_app sep a b :
  split sep (a +:+ String sep b) = split sep a ++ split sep b.
Proof.
  induction a as [|c a IH].
  - rewrite app_empty. cbn. rewrite Ascii.eqb_refl. reflexivity.
  - rewrite app_cons. cbn [split]. rewrite IH.
    destruct (Ascii.eqb c sep); [reflexivity |].
    destruct (split sep a) as [|p ps] eqn:E; [| reflexivity].
    destruct (split_nonempty sep a E).
Qed.

Lemma startswith_before_sep sep sub a b :
  has_char sep sub = false ->
  startswith sub (a +:+ String sep b) = startswith sub a.
Proof.
  revert a. induction sub as [|x sub IH]; intros a Hsub; [reflexivity |].
  cbn in Hsub. apply orb_false_iff in Hsub as [Hx Hsub].
  destruct a as [|y a].
  - rewrite app_empty. cbn. rewrite Hx. reflexivity.
  - rewrite app_cons. cbn. rewrite (IH a Hsub). reflexivity.
Qed.

Lemma contains_empty_string sub : contains sub "" = startswith sub "".
Proof. cbn. apply orb_false_r. Qed.

(** A word without the separator occurs in [a + sep + b] exactly when it
    occurs in [a] or in [b]. *)
Lemma contains_app_sep sep sub a b :
  has_char sep sub = false ->
  contains sub (a +:+ String sep b) = contains sub a || contains sub b.
Proof.
  intros Hsub. induction a as [|y a IH].
  - rewrite app_empty. cbn [contains].
    rewrite <- (app_empty (String sep b)) at 1.
    rewrite (startswith_before_sep sep sub "" b Hsub).
    rewrite orb_false_r. reflexivity.
  - rewrite app_cons. cbn [contains]. rewrite <- app_cons.
    rewrite (startswith_before_sep sep sub (String y a) b Hsub), IH.
    rewrite orb_assoc. reflexivity.
Qed.

Lemma device_topic_eq device_id kind :
  device_topic device_id kind
  = "smarthome" +:+ String "/" (device_id +:+ String "/" kind).
Proof. reflexivity. Qed.

Lemma device_topic_id device_id kind :
  has_char "/" device_id = false ->
  topic_device_id (device_topic device_id kind) = Some device_id.
Proof.
  intros Hid. unfold topic_device_id. rewrite device_topic_eq.
  rewrite !split_app, (split_no_sep "/" device_id Hid).
  cbn [split Ascii.eqb]. cbn.
  destruct (split "/" kind) as [|k ks] eqn:E; [destruct (split_nonempty _ _ E) |].
  reflexivity.
Qed.

(** X1: The device id that [on_mqtt_message] takes from a topic built as
    [f"smarthome/{device_id}/{kind}"], as [control_device] and
    [ai_command] build the control topic, is that device id, for an id
    without a slash. *)
Theorem topic_device_id_roundtrip device_id kind :
  has_char "/" device_id = false ->
  topic_device_id (device_topic device_id kind) = Some device_id
  /\ topic_device_id ("smarthome/" +:+ device_id +:+ "/control") = Some device_id.
Proof.
  intros H. split; [apply device_topic_id; exact H |].
  apply (device_topic_id device_id "control" H).
Qed.

(** A device id with a slash is cut: the hub takes the part before the
    first slash for the device. *)
Lemma topic_device_id_cut a b kind :
  has_char "/" a = false ->
  topic_device_id (device_topic (a +:+ String "/" b) kind) = Some a.
Proof.
  intros Ha. unfold topic_device_id. rewrite device_topic_eq.
  rewrite !split_app, (split_no_sep "/" a Ha).
  cbn.
  destruct (split "/" b) as [|k ks] eqn:E; [destruct (split_nonempty _ _ E) |].
  reflexivity.
Qed.

(** One of the three words occurs in a device topic exactly when it
    occurs in the device id or in the last part. *)
Lemma contains_device_topic sub device_id kind :
  has_char "/" sub = false ->
  contains sub "smarthome" = false ->
  contains sub (device_topic device_id kind)
  = contains sub device_id || contains sub kind.
Proof.
  intros Hsub Hpre. rewrite device_topic_eq.
  rewrite !(contains_app_sep "/" sub) by exact Hsub.
  rewrite Hpre. reflexivity.
Qed.

(** ** What a message can and cannot change *)

Lemma update_status_static status now id r :
  d_id (update_status status now id r) = d_id r
  /\ d_name (update_status status now id r) = d_name r
  /\ d_type (update_status status now id r) = d_type r
  /\ d_room (update_status status now id r) = d_room r
  /\ d_config (update_status status now id r) = d_config r.
Proof. unfold update_status. destruct (String.eqb (d_id r) id); cbn; auto. Qed.

Lemma map_update_status {A} (f : device_row -> A) status now id rows :
  (forall r, f (update_status status now id r) = f r) ->
  map f (map (update_status status now id) rows) = map f rows.
Proof. intros H. rewrite map_map. apply map_ext. exact H. Qed.

Lemma store_extends_refl c : store_extends c c.
Proof. unfold store_extends. split_and!; reflexivity. Qed.

Lemma store_extends_trans c1 c2 c3 :
  store_extends c1 c2 -> store_extends c2 c3 -> store_extends c1 c3.
Proof.
  unfold store_extends.
  intros (A1 & A2 & A3 & A4 & A5 & A6 & A7 & A8) (B1 & B2 & B3 & B4 & B5 & B6 & B7 & B8).
  split_and!; try congruence; etrans; eassumption.
Qed.

Lemma store_extends_update status now id c :
  store_extends c (sql_update_device status now id c).
Proof.
  unfold store_extends, sql_update_device. cbn.
  split_and!; try reflexivity;
    apply map_update_status; intros r; apply update_status_static.
Qed.

Lemma store_extends_log id action value now c :
  store_extends c (sql_insert_log id action value now c).
Proof.
  unfold store_extends, sql_insert_log. cbn.
  split_and!; try reflexivity; apply prefix_app_r; reflexivity.
Qed.

Lemma store_extends_security id event_type description now c :
  store_extends c (sql_insert_security id event_type description now c).
Proof.
  unfold store_extends, sql_insert_security. cbn.
  split_and!; try reflexivity; apply prefix_app_r; reflexivity.
Qed.

Lemma store_extends_energy sqlite_real id power now c :
  store_extends c (sql_insert_energy sqlite_real id power now c).
Proof.
  unfold store_extends, sql_insert_energy. cbn.
  split_and!; try reflexivity; apply prefix_app_r; reflexivity.
Qed.

Lemma message_frame_refl w : message_frame w w.
Proof.
  unfold message_frame. split_and!; try reflexivity. apply store_extends_refl.
Qed.

Lemma message_frame_trans w1 w2 w3 :
  message_frame w1 w2 -> message_frame w2 w3 -> message_frame w1 w3.
Proof.
  unfold message_frame.
  intros (A1 & A2 & A3 & A4 & A5 & A6) (B1 & B2 & B3 & B4 & B5 & B6).
  split_and!; try congruence; try (etrans; eassumption).
  eapply store_extends_trans; eassumption.
Qed.

Lemma message_frame_error e w w' :
  message_frame w w' -> message_frame w (after_error e w').
Proof.
  unfold message_frame, after_error. cbn.
  intros (A1 & A2 & A3 & A4 & A5 & A6). split_and!; try assumption.
  apply prefix_app_r. exact A6.
Qed.

Lemma dom_insert_grows (m : gmap string json) k v : dom m ⊆ dom (<[k := v]> m).
Proof. rewrite dom_insert_L. set_solver. Qed.

Section Messages.

Variable decode : string -> result string.
Variable json_loads : string -> result json.
Variable json_dumps : json -> string.
Variable sqlite_real : string -> option Qc.

Local Abbreviation on_message := (on_mqtt_message decode json_loads json_dumps sqlite_real).
Local Abbreviation status_handler := (handle_device_status json_dumps).
Local Abbreviation deliver := (deliver_all decode json_loads json_dumps sqlite_real).

Ltac frame_goal :=
  unfold message_frame; cbn; split_and!;
  try reflexivity; try apply store_extends_refl; try apply dom_insert_grows;
  try (apply prefix_app_r; reflexivity).

Lemma status_handler_frame clk device_id p w :
  message_frame w (snd (status_handler clk device_id p w)).
Proof.
  unfold handle_device_status.
  destruct device_id as [id|]; [| apply message_frame_refl].
  destruct (truthy_id (Some id)); [| apply message_frame_refl].
  unfold bind, lift, devices_setitem, sqlite3_connect, commit, socketio_emit.
  destruct (py_get p "status" (JStr "online")) as [v|e]; [| frame_goal].
  destruct (sql_bind "0" v) as [status|e]; frame_goal.
  eapply store_extends_trans;
    [apply store_extends_update | apply store_extends_log].
Qed.

Lemma sensor_handler_frame clk device_id p w :
  message_frame w (snd (handle_sensor_data clk device_id p w)).
Proof.
  unfold handle_sensor_data.
  destruct device_id as [id|]; [| apply message_frame_refl].
  destruct (truthy_id (Some id)); [| apply message_frame_refl].
  unfold bind, lift, sensor_data_setitem, sqlite3_connect, commit, socketio_emit.
  destruct (py_get p "motion_detected" JNull) as [v|e]; [| frame_goal].
  destruct (truthy v); frame_goal.
  apply store_extends_security.
Qed.

Lemma energy_handler_frame clk device_id p w :
  message_frame w (snd (handle_energy_data sqlite_real clk device_id p w)).
Proof.
  unfold handle_energy_data.
  destruct device_id as [id|]; [| apply message_frame_refl].
  destruct (truthy_id (Some id)); [| apply message_frame_refl].
  unfold bind, lift, sqlite3_connect, commit.
  destruct (py_in "power_watts" p) as [[|]|e]; [| frame_goal | frame_goal].
  destruct (py_getitem p "power_watts") as [v|e]; [| frame_goal].
  destruct (sql_bind "1" v) as [power|e]; frame_goal.
  apply store_extends_energy.
Qed.

Lemma guarded_frame (c : M unit) w :
  message_frame w (snd (c w)) -> message_frame w (snd (guarded c w)).
Proof.
  unfold guarded, try_except. destruct (c w) as [[[]|e] w']; cbn; [auto |].
  apply message_frame_error.
Qed.

Lemma message_step_frame clk msg w :
  message_frame w (snd (on_message clk msg w)).
Proof.
  destruct (decode (payload msg)) as [text|e] eqn:Hd.
  2: { rewrite (on_message_decode_error decode json_loads json_dumps sqlite_real clk msg e w Hd).
       apply message_frame_error, message_frame_refl. }
  destruct (json_loads text) as [p|e] eqn:Hp.
  2: { rewrite (on_message_parse_error decode json_loads json_dumps sqlite_real clk msg text e w Hd Hp).
       apply message_frame_error, message_frame_refl. }
  destruct (contains "status" (topic msg)) eqn:Cs.
  { rewrite (route_status decode json_loads json_dumps sqlite_real clk msg text p w Hd Hp Cs).
    apply guarded_frame, status_handler_frame. }
  destruct (contains "sensor" (topic msg)) eqn:Cn.
  { rewrite (route_sensor decode json_loads json_dumps sqlite_real clk msg text p w Hd Hp Cs Cn).
    apply guarded_frame, sensor_handler_frame. }
  destruct (contains "energy" (topic msg)) eqn:Ce.
  { rewrite (route_energy decode json_loads json_dumps sqlite_real clk msg text p w Hd Hp Cs Cn Ce).
    apply guarded_frame, energy_handler_frame. }
  rewrite (route_none decode json_loads json_dumps sqlite_real clk msg text p w Hd Hp Cs Cn Ce).
  apply message_frame_refl.
Qed.

(** X4: For every sequence of messages, whatever their topics and payloads:
    nothing is handed to the MQTT client; the devices table keeps its
    rows, in order, with their id, name, type, room and config, so no
    device row is created or deleted and the ids stay unique; the other
    tables, the emitted events and the printed lines keep what they had
    and may get more; no device leaves the in-memory dicts. *)
Theorem ingestion_frame msgs w :
  let w' := deliver msgs w in
  message_frame w w'
  /\ length (t_devices (db w')) = length (t_devices (db w))
  /\ (NoDup (map d_id (t_devices (db w))) -> NoDup (map d_id (t_devices (db w')))).
Proof.
  assert (H : message_frame w (deliver msgs w)).
  { revert w. induction msgs as [|[clk msg] msgs IH]; intros w; cbn [deliver_all].
    - apply message_frame_refl.
    - eapply message_frame_trans; [apply message_step_frame | apply IH]. }
  cbn zeta. split; [exact H |].
  destruct H as (_ & (Hid & _) & _).
  split; [| rewrite Hid; auto].
  rewrite <- (length_map d_id), Hid, length_map. reflexivity.
Qed.

(** ** Payloads the handlers choke on *)

(** X7: A status message whose payload is no dict, or whose status is a value
    the store cannot take (a list or a dict): the in-memory entry of the
    device has already been replaced by the payload when the handler
    fails; the store is untouched, no event is emitted, and the error is
    printed. *)
Theorem status_failure_after_replace clk msg text p id e w :
  decode (payload msg) = Ok text -> json_loads text = Ok p ->
  has_substring "status" (topic msg) ->
  topic_device_id (topic msg) = Some id -> id <> "" ->
  match py_get p "status" (JStr "online") with
  | Ok v => sql_bind "0" v
  | Raise e' => Raise e'
  end = Raise e ->
  on_message clk msg w
  = (Ok tt,
     {| devices := <[id := p]> (devices w); sensor_data := sensor_data w;
        db := db w; emitted := emitted w;
        printed := printed w ++ ["Error processing MQTT message: " +:+ str_exn e];
        mqtt_client := mqtt_client w |}).
Proof.
  intros Hd Hp Hs Hid Hne He. apply contains_spec in Hs.
  rewrite (route_status decode json_loads json_dumps sqlite_real clk msg text p w Hd Hp Hs), Hid.
  unfold guarded, try_except, handle_device_status.
  rewrite (truthy_id_Some id Hne).
  unfold bind, lift, devices_setitem, sqlite3_connect, print.
  destruct (py_get p "status" (JStr "online")) as [v|e'].
  - rewrite He. reflexivity.
  - injection He as ->. reflexivity.
Qed.

(** X8: A sensor message whose payload is no dict: the in-memory sensor entry
    has been replaced by the payload, nothing else happens but the printed
    error. *)
Theorem sensor_failure_after_replace clk msg text p id w :
  decode (payload msg) = Ok text -> json_loads text = Ok p ->
  ~ has_substring "status" (topic msg) -> has_substring "sensor" (topic msg) ->
  topic_device_id (topic msg) = Some id -> id <> "" ->
  (forall items, p <> JObj items) ->
  on_message clk msg w
  = (Ok tt,
     {| devices := devices w; sensor_data := <[id := p]> (sensor_data w);
        db := db w; emitted := emitted w;
        printed := printed w ++
          ["Error processing MQTT message: '" +:+ type_name p
             +:+ "' object has no attribute 'get'"];
        mqtt_client := mqtt_client w |}).
Proof.
  intros Hd Hp Hs Hn Hid Hne Hdict.
  apply contains_false in Hs. apply contains_spec in Hn.
  rewrite (route_sensor decode json_loads json_dumps sqlite_real clk msg text p w Hd Hp Hs Hn), Hid.
  unfold guarded, try_except, handle_sensor_data.
  rewrite (truthy_id_Some id Hne).
  unfold bind, lift, sensor_data_setitem, print.
  destruct p; try reflexivity. destruct (Hdict items eq_refl).
Qed.

(** X9: An energy message is all or nothing: either one row is added to the
    energy table and nothing else changes, or the state is as before
    except, when the handler failed, for the printed error. *)
Theorem energy_all_or_nothing clk msg text p id w :
  decode (payload msg) = Ok text -> json_loads text = Ok p ->
  ~ has_substring "status" (topic msg) -> ~ has_substring "sensor" (topic msg) ->
  has_substring "energy" (topic msg) ->
  topic_device_id (topic msg) = Some id ->
  on_message clk msg w = (Ok tt, w)
  \/ (exists e, on_message clk msg w = (Ok tt, after_error e w))
  \/ (exists power,
        on_message clk msg w
        = (Ok tt,
           {| devices := devices w; sensor_data := sensor_data w;
              db := sql_insert_energy sqlite_real id power (CURRENT_TIMESTAMP clk) (db w);
              emitted := emitted w; printed := printed w;
              mqtt_client := mqtt_client w |})).
Proof.
  intros Hd Hp Hs Hn He Hid.
  apply contains_false in Hs, Hn. apply contains_spec in He.
  rewrite (route_energy decode json_loads json_dumps sqlite_real clk msg text p w Hd Hp Hs Hn He), Hid.
  unfold guarded, try_except, handle_energy_data.
  destruct (truthy_id (Some id)); [| left; reflexivity].
  unfold bind, lift, sqlite3_connect, commit, print.
  destruct (py_in "power_watts" p) as [[|]|e];
    [| left; reflexivity | right; left; exists e; reflexivity].
  destruct (py_getitem p "power_watts") as [v|e];
    [| right; left; exists e; reflexivity].
  destruct (sql_bind "1" v) as [power|e];
    [right; right; exists power; reflexivity | right; left; exists e; reflexivity].
Qed.

(** ** Topics of the devices *)

Lemma device_topic_word sub device_id kind :
  has_char "/" sub = false -> contains sub "smarthome" = false ->
  (has_substring sub (device_topic device_id kind)
   <-> has_substring sub device_id \/ has_substring sub kind).
Proof.
  intros Hsub Hpre. rewrite <- !contains_spec.
  rewrite (contains_device_topic sub device_id kind Hsub Hpre).
  apply orb_true_iff.
Qed.

(** X2: For a device whose id has no slash and none of the words [status],
    [sensor], [energy] in it, the last part of the topic decides: the
    status, sensor and energy topics go to their handlers with that
    device id, and a message on the control topic, which the hub is
    subscribed to as well, changes nothing. *)
Theorem device_topics_routing clk id raw text p w :
  has_char "/" id = false ->
  ~ has_substring "status" id -> ~ has_substring "sensor" id ->
  ~ has_substring "energy" id ->
  decode raw = Ok text -> json_loads text = Ok p ->
  on_message clk {| topic := device_topic id "status"; payload := raw |} w
  = guarded (status_handler clk (Some id) p) w
  /\ on_message clk {| topic := device_topic id "sensor"; payload := raw |} w
     = guarded (handle_sensor_data clk (Some id) p) w
  /\ on_message clk {| topic := device_topic id "energy"; payload := raw |} w
     = guarded (handle_energy_data sqlite_real clk (Some id) p) w
  /\ on_message clk {| topic := device_topic id "control"; payload := raw |} w
     = (Ok tt, w).
Proof.
  intros Hid Hs Hn He Hd Hp.
  apply contains_false in Hs, Hn, He.
  assert (Hw : forall sub kind,
             has_char "/" sub = false -> contains sub "smarthome" = false ->
             contains sub id = false ->
             contains sub (device_topic id kind) = contains sub kind).
  { intros sub kind H1 H2 H3.
    rewrite (contains_device_topic sub id kind H1 H2), H3. reflexivity. }
  split_and!.
  - rewrite (route_status decode json_loads json_dumps sqlite_real clk
               {| topic := device_topic id "status"; payload := raw |} text p w Hd Hp);
      cbn [topic]; [| rewrite Hw by (reflexivity || assumption); reflexivity].
    rewrite (device_topic_id id _ Hid). reflexivity.
  - rewrite (route_sensor decode json_loads json_dumps sqlite_real clk
               {| topic := device_topic id "sensor"; payload := raw |} text p w Hd Hp);
      cbn [topic]; try (rewrite Hw by (reflexivity || assumption); reflexivity).
    rewrite (device_topic_id id _ Hid). reflexivity.
  - rewrite (route_energy decode json_loads json_dumps sqlite_real clk
               {| topic := device_topic id "energy"; payload := raw |} text p w Hd Hp);
      cbn [topic]; try (rewrite Hw by (reflexivity || assumption); reflexivity).
    rewrite (device_topic_id id _ Hid). reflexivity.
  - apply (route_none decode json_loads json_dumps sqlite_real clk
             {| topic := device_topic id "control"; payload := raw |} text p w Hd Hp);
      cbn [topic]; rewrite Hw by (reflexivity || assumption); reflexivity.
Qed.

(** X3: The words are looked for in the whole topic, the device id included:
    every message of a device with [status] in its id is taken for a
    status message, and every message of a device with [sensor] (and not
    [status]) in its id for a sensor message, unless the last part of the
    topic has [status] in it; so the energy readings of such a device are
    not stored and its control messages are handled as its own data. *)
Theorem device_id_word_decides clk id kind raw text p w :
  has_char "/" id = false ->
  decode raw = Ok text -> json_loads text = Ok p ->
  (has_substring "status" id ->
     on_message clk {| topic := device_topic id kind; payload := raw |} w
     = guarded (status_handler clk (Some id) p) w)
  /\ (~ has_substring "status" id -> has_substring "sensor" id ->
      ~ has_substring "status" kind ->
      on_message clk {| topic := device_topic id kind; payload := raw |} w
      = guarded (handle_sensor_data clk (Some id) p) w).
Proof.
  intros Hid Hd Hp. split.
  - intros Hs.
    rewrite (route_status decode json_loads json_dumps sqlite_real clk
               {| topic := device_topic id kind; payload := raw |} text p w Hd Hp);
      cbn [topic].
    + rewrite (device_topic_id id _ Hid). reflexivity.
    + apply contains_spec, device_topic_word; [reflexivity | reflexivity | auto].
  - intros Hs Hn Hk.
    rewrite (route_sensor decode json_loads json_dumps sqlite_real clk
               {| topic := device_topic id kind; payload := raw |} text p w Hd Hp);
      cbn [topic].
    + rewrite (device_topic_id id _ Hid). reflexivity.
    + apply contains_false. rewrite device_topic_word by reflexivity. tauto.
    + apply contains_spec, device_topic_word; [reflexivity | reflexivity | auto].
Qed.

(** ** Messages in sequence, and messages of different devices *)



Lemma update_status_other status now id r : d_id r <> id -> update_status status now id r = r.
Proof.
  intros H. unfold update_status.
  destruct (String.eqb_spec (d_id r) id); [contradiction | reflexivity].
Qed.

Ltac iso_goal :=
  try reflexivity; try (apply lookup_insert_ne; assumption);
  try (intros; assumption).

Lemma status_handler_isolated clk device_id p id' w :
  device_id <> Some id' ->
  let w' := snd (status_handler clk device_id p w) in
  devices w' !! id' = devices w !! id'
  /\ sensor_data w' = sensor_data w
  /\ (forall (i : nat) r, t_devices (db w) !! i = Some r -> d_id r = id' ->
        t_devices (db w') !! i = Some r).
Proof.
  intros Hne. unfold handle_device_status.
  destruct device_id as [id|]; [| cbn; auto].
  destruct (truthy_id (Some id)); [| cbn; auto].
  assert (id <> id') by congruence.
  unfold bind, lift, devices_setitem, sqlite3_connect, commit, socketio_emit.
  destruct (py_get p "status" (JStr "online")) as [v|e];
    [| cbn; split_and!; iso_goal].
  destruct (sql_bind "0" v) as [status|e]; cbn; split_and!; iso_goal.
  intros i r Hi Hr. rewrite list_lookup_fmap, Hi. cbn.
  rewrite update_status_other by congruence. reflexivity.
Qed.

Lemma sensor_handler_isolated clk device_id p id' w :
  device_id <> Some id' ->
  let w' := snd (handle_sensor_data clk device_id p w) in
  devices w' = devices w
  /\ sensor_data w' !! id' = sensor_data w !! id'
  /\ t_devices (db w') = t_devices (db w).
Proof.
  intros Hne. unfold handle_sensor_data.
  destruct device_id as [id|]; [| cbn; auto].
  destruct (truthy_id (Some id)); [| cbn; auto].
  assert (id <> id') by congruence.
  unfold bind, lift, sensor_data_setitem, sqlite3_connect, commit, socketio_emit.
  destruct (py_get p "motion_detected" JNull) as [v|e];
    [| cbn; split_and!; iso_goal].
  destruct (truthy v); cbn; split_and!; iso_goal.
Qed.

Lemma energy_handler_isolated clk device_id p w :
  let w' := snd (handle_energy_data sqlite_real clk device_id p w) in
  devices w' = devices w /\ sensor_data w' = sensor_data w
  /\ t_devices (db w') = t_devices (db w).
Proof.
  unfold handle_energy_data.
  destruct device_id as [id|]; [| cbn; auto].
  destruct (truthy_id (Some id)); [| cbn; auto].
  unfold bind, lift, sqlite3_connect, commit.
  destruct (py_in "power_watts" p) as [[|]|e]; [| cbn; auto | cbn; auto].
  destruct (py_getitem p "power_watts") as [v|e]; [| cbn; auto].
  destruct (sql_bind "1" v) as [power|e]; cbn; auto.
Qed.

Lemma guarded_keeps (c : M unit) w :
  devices (snd (guarded c w)) = devices (snd (c w))
  /\ sensor_data (snd (guarded c w)) = sensor_data (snd (c w))
  /\ db (snd (guarded c w)) = db (snd (c w)).
Proof.
  unfold guarded, try_except. destruct (c w) as [[[]|e] w']; cbn; auto.
Qed.

(** X5: A message touches the device named in its topic and no other: for
    every other device id, the in-memory status and sensor entries and
    the rows of the devices table are as before, whatever the payload. *)
Theorem other_devices_untouched clk msg id' w :
  topic_device_id (topic msg) <> Some id' ->
  let w' := snd (on_message clk msg w) in
  devices w' !! id' = devices w !! id'
  /\ sensor_data w' !! id' = sensor_data w !! id'
  /\ (forall (i : nat) r, t_devices (db w) !! i = Some r -> d_id r = id' ->
        t_devices (db w') !! i = Some r).
Proof.
  intros Hne w'. subst w'.
  destruct (decode (payload msg)) as [text|e] eqn:Hd.
  2: { rewrite (on_message_decode_error decode json_loads json_dumps sqlite_real clk msg e w Hd).
       cbn. auto. }
  destruct (json_loads text) as [p|e] eqn:Hp.
  2: { rewrite (on_message_parse_error decode json_loads json_dumps sqlite_real clk msg text e w Hd Hp).
       cbn. auto. }
  destruct (contains "status" (topic msg)) eqn:Cs.
  { rewrite (route_status decode json_loads json_dumps sqlite_real clk msg text p w Hd Hp Cs).
    destruct (guarded_keeps (status_handler clk (topic_device_id (topic msg)) p) w)
      as (-> & -> & ->).
    destruct (status_handler_isolated clk _ p id' w Hne) as (H1 & H2 & H3).
    rewrite H2. auto. }
  destruct (contains "sensor" (topic msg)) eqn:Cn.
  { rewrite (route_sensor decode json_loads json_dumps sqlite_real clk msg text p w Hd Hp Cs Cn).
    destruct (guarded_keeps (handle_sensor_data clk (topic_device_id (topic msg)) p) w)
      as (-> & -> & ->).
    destruct (sensor_handler_isolated clk _ p id' w Hne) as (H1 & H2 & H3).
    rewrite H1, H3. auto. }
  destruct (contains "energy" (topic msg)) eqn:Ce.
  { rewrite (route_energy decode json_loads json_dumps sqlite_real clk msg text p w Hd Hp Cs Cn Ce).
    destruct (guarded_keeps (handle_energy_data sqlite_real clk (topic_device_id (topic msg)) p) w)
      as (-> & -> & ->).
    destruct (energy_handler_isolated clk (topic_device_id (topic msg)) p w)
      as (H1 & H2 & H3).
    rewrite H1, H2, H3. auto. }
  rewrite (route_none decode json_loads json_dumps sqlite_real clk msg text p w Hd Hp Cs Cn Ce).
  cbn. auto.
Qed.

End Messages.

(** ** The devices API *)

Section Devices.

Variable decode : string -> result string.
Variable json_loads : string -> result json.
Variable json_dumps : json -> string.
Variable sqlite_real : string -> option Qc.

Local Abbreviation on_message := (on_mqtt_message decode json_loads json_dumps sqlite_real).
Local Abbreviation entry := (device_entry json_loads).
Local Abbreviation config_of := (row_config json_loads).

Lemma map_each_pure (body : device_row -> M json) (f : device_row -> result json) :
  (forall row w, body row w = (f row, w)) ->
  forall rows w, map_each body rows w = (entries f rows, w).
Proof.
  intros Hbody. induction rows as [|row rows IH]; intros w; [reflexivity |].
  cbn [map_each entries]. unfold bind at 1. rewrite Hbody.
  destruct (f row) as [y|e]; [| reflexivity].
  unfold bind at 1. rewrite IH. destruct (entries f rows); reflexivity.
Qed.

Lemma get_devices_entries w :
  get_devices json_loads w
  = (match entries entry (t_devices (db w)) with
     | Ok l => Ok (JArr l)
     | Raise e => Raise e
     end, w).
Proof.
  unfold get_devices. unfold bind at 1. unfold sqlite3_connect.
  unfold bind at 1. rewrite (map_each_pure _ entry).
  - destruct (entries entry (t_devices (db w))); reflexivity.
  - intros row w0.
    unfold device_entry, row_config, device_dict, bind, lift, ret.
    destruct (d_config row) as [text|]; [| reflexivity].
    destruct (truthy_id (Some text)); [| reflexivity].
    destruct (json_loads text); reflexivity.
Qed.

Lemma entries_ok rows : forall l,
  entries entry rows = Ok l ->
  length l = length rows
  /\ forall (i : nat) row, rows !! i = Some row ->
       exists config, config_of row = Ok config
                      /\ l !! i = Some (device_dict row config).
Proof.
  induction rows as [|row rows IH]; intros l; cbn [entries].
  - intros [= <-]. split; [reflexivity | intros i row; rewrite lookup_nil; discriminate].
  - unfold device_entry at 1.
    destruct (config_of row) as [config|e] eqn:Ec; [| discriminate].
    destruct (entries entry rows) as [ys|e]; [| discriminate].
    intros [= <-]. destruct (IH ys eq_refl) as [Hlen Hrows].
    split; [cbn; rewrite Hlen; reflexivity |].
    intros [|i] r; cbn.
    + intros [= <-]. eauto.
    + apply Hrows.
Qed.

Lemma entries_raise rows row e :
  row ∈ rows -> config_of row = Raise e -> exists e', entries entry rows = Raise e'.
Proof.
  induction 1 as [row rows | row r rows Hin IH]; intros He; cbn [entries].
  - unfold device_entry. rewrite He. eauto.
  - destruct (entry r); [| eauto].
    destruct (IH He) as [e' ->]. eauto.
Qed.

(** X10: [get_devices] changes nothing; when it answers, the list has one dict
    per row of the devices table, in the order of the rows, with the
    columns of the row and with its config parsed, a NULL or empty config
    being shown as the empty dict. *)
Theorem get_devices_lists_rows w l :
  fst (get_devices json_loads w) = Ok (JArr l) ->
  snd (get_devices json_loads w) = w
  /\ length l = length (t_devices (db w))
  /\ forall (i : nat) row, t_devices (db w) !! i = Some row ->
       exists config,
         l !! i = Some (device_dict row config)
         /\ (d_config row = None \/ d_config row = Some "" -> config = JObj [])
         /\ (forall text, d_config row = Some text -> text <> "" ->
               json_loads text = Ok config).
Proof.
  rewrite get_devices_entries. cbn.
  destruct (entries entry (t_devices (db w))) as [l0|e] eqn:E; [| discriminate].
  intros [= <-]. destruct (entries_ok _ _ E) as [Hlen Hrows].
  split; [reflexivity |]. split; [exact Hlen |].
  intros i row Hi. destruct (Hrows i row Hi) as (config & Hc & Hl).
  exists config. split; [exact Hl |].
  unfold row_config in Hc. split.
  - intros [Hn | Hn]; rewrite Hn in Hc; cbn in Hc; congruence.
  - intros text Ht Hne. rewrite Ht in Hc.
    rewrite (truthy_id_Some text Hne) in Hc. exact Hc.
Qed.

(** X11: One row whose config is no JSON makes the whole listing fail:
    [get_devices] raises, it has no handler of its own. *)
Theorem get_devices_corrupt_config w row text e :
  row ∈ t_devices (db w) -> d_config row = Some text -> text <> "" ->
  json_loads text = Raise e ->
  exists e', get_devices json_loads w = (Raise e', w).
Proof.
  intros Hin Ht Hne He. rewrite get_devices_entries.
  destruct (entries_raise (t_devices (db w)) row e Hin) as [e' ->]; [| eauto].
  unfold row_config. rewrite Ht, (truthy_id_Some text Hne). exact He.
Qed.

Lemma row_config_update status now id row :
  config_of (update_status status now id row) = config_of row.
Proof.
  unfold row_config.
  destruct (update_status_static status now id row) as (_ & _ & _ & _ & ->).
  reflexivity.
Qed.

Lemma entries_update status now id rows : forall l0,
  entries entry rows = Ok l0 ->
  exists l,
    entries entry (map (update_status status now id) rows) = Ok l
    /\ forall (i : nat) row, rows !! i = Some row ->
         exists config,
           l0 !! i = Some (device_dict row config)
           /\ l !! i = Some (device_dict (update_status status now id row) config).
Proof.
  induction rows as [|row rows IH]; intros l0; cbn [entries map].
  - intros [= <-]. exists []. split; [reflexivity |].
    intros i row. rewrite lookup_nil. discriminate.
  - unfold device_entry at 1 3. rewrite row_config_update.
    destruct (config_of row) as [config|e]; [| discriminate].
    destruct (entries entry rows) as [ys|e]; [| discriminate].
    intros [= <-]. destruct (IH ys eq_refl) as (l & -> & Hl).
    eexists. split; [reflexivity |].
    intros [|i] r; cbn.
    + intros [= <-]. eauto.
    + apply Hl.
Qed.

(** X12: What a status message stores is what the listing shows: after a
    status message with a status string for a device that has a row, a
    listing that worked before works again, has as many entries, shows
    the payload's status and the time of the write for that device with
    its config as before, and shows every other device as before. *)
Theorem status_shows_in_listing clk msg text items id s (i : nat) r l0 w :
  decode (payload msg) = Ok text -> json_loads text = Ok (JObj items) ->
  has_substring "status" (topic msg) ->
  topic_device_id (topic msg) = Some id -> id <> "" ->
  dict_lookup "status" items = Some (JStr s) ->
  t_devices (db w) !! i = Some r -> d_id r = id ->
  fst (get_devices json_loads w) = Ok (JArr l0) ->
  exists l config,
    fst (get_devices json_loads (snd (on_message clk msg w))) = Ok (JArr l)
    /\ length l = length l0
    /\ l0 !! i = Some (device_dict r config)
    /\ l !! i
       = Some (JObj [("id", JStr id); ("name", JStr (d_name r));
                     ("type", JStr (d_type r)); ("room", JStr (d_room r));
                     ("status", JStr s);
                     ("last_seen", JStr (CURRENT_TIMESTAMP clk));
                     ("config", config)])
    /\ forall (j : nat) r', t_devices (db w) !! j = Some r' -> d_id r' <> id ->
         l !! j = l0 !! j.
Proof.
  intros Hd Hp Hs Hid Hne Hst Hi Hr Hget.
  assert (Hb : sql_bind "0" (match dict_lookup "status" items with
                             | Some v => v
                             | None => JStr "online"
                             end) = Ok (SText s)) by (rewrite Hst; reflexivity).
  rewrite (ingest_status decode json_loads json_dumps sqlite_real clk msg text items id _ w
             Hd Hp Hs Hid Hne Hb).
  rewrite get_devices_entries in Hget |- *. cbn in Hget |- *.
  destruct (entries entry (t_devices (db w))) as [l0'|e] eqn:E; [| discriminate].
  injection Hget as ->.
  destruct (entries_update (SText s) (CURRENT_TIMESTAMP clk) id _ _ E)
    as (l & El & Hl).
  rewrite El. destruct (Hl i r Hi) as (config & H0 & H1).
  exists l, config. split; [reflexivity |].
  destruct (entries_ok _ _ E) as [Hlen0 _].
  destruct (entries_ok _ _ El) as [Hlen _].
  split; [rewrite Hlen, Hlen0, length_map; reflexivity |].
  split; [exact H0 |]. split.
  - rewrite H1. unfold update_status. rewrite Hr, String.eqb_refl. reflexivity.
  - intros j r' Hj Hother. destruct (Hl j r' Hj) as (config' & H0' & H1').
    rewrite H0', H1', update_status_other by exact Hother. reflexivity.
Qed.

End Devices.

(** ** Commands: the control API and the translated actions *)

Section Commands.

Variable decode : string -> result string.
Variable json_loads : string -> result json.
Variable json_dumps : json -> string.
Variable sqlite_real : string -> option Qc.
Variable py_repr : json -> string.
Variable publish_check : string -> string -> option exn.

Local Abbreviation on_message := (on_mqtt_message decode json_loads json_dumps sqlite_real).
Local Abbreviation control := (control_device json_dumps publish_check).
Local Abbreviation execute := (execute_action json_dumps py_repr publish_check).
Local Abbreviation ai :=
  (ai_command json_loads json_dumps py_repr publish_check).

(** X13: A command that the MQTT client takes is published once on the control
    topic of the device and logged once as [control_command]; the answer
    is a success with status 200; nothing else changes. *)
Theorem control_device_sends_and_logs clk device_id command sent w :
  mqtt_client w = Some sent ->
  publish_check (device_topic device_id "control") (json_dumps command) = None ->
  control clk device_id command w
  = (Ok (JObj [("success", JBool true); ("message", JStr "Command sent")], 200),
     {| devices := devices w; sensor_data := sensor_data w;
        db := sql_insert_log device_id "control_command" (json_dumps command)
                (CURRENT_TIMESTAMP clk) (db w);
        emitted := emitted w; printed := printed w;
        mqtt_client :=
          Some (sent ++ [(device_topic device_id "control", json_dumps command)]) |}).
Proof.
  intros Hc Hok. unfold control_device, try_except, bind, mqtt_publish.
  change ("smarthome/" +:+ device_id +:+ "/control")
    with (device_topic device_id "control").
  rewrite Hc, Hok. reflexivity.
Qed.

(** X14: A command that cannot be published, because the MQTT client was never
    set up or because it refuses the topic, is not logged either: the
    answer is a failure with status 500 and the text of the exception,
    and the state is as before. *)
Theorem control_device_failure_logs_nothing clk device_id command w :
  (mqtt_client w = None ->
     control clk device_id command w
     = (Ok (JObj [("success", JBool false);
                  ("error", JStr "'NoneType' object has no attribute 'publish'")],
            500), w))
  /\ (forall sent e,
        mqtt_client w = Some sent ->
        publish_check (device_topic device_id "control") (json_dumps command) = Some e ->
        control clk device_id command w
        = (Ok (JObj [("success", JBool false); ("error", JStr (str_exn e))], 500), w)).
Proof.
  split.
  - intros Hc. unfold control_device, try_except, bind, mqtt_publish.
    rewrite Hc. reflexivity.
  - intros sent e Hc He. unfold control_device, try_except, bind, mqtt_publish.
    change ("smarthome/" +:+ device_id +:+ "/control")
      with (device_topic device_id "control").
    rewrite Hc, He. reflexivity.
Qed.

(** X15: The hub hears its own commands, being subscribed to the control
    topics.  For a device whose id has no slash and none of the words
    [status], [sensor], [energy], the command that [control_device] has
    published comes back without any effect. *)
Theorem control_echo_is_ignored clk clk' device_id command sent text p w :
  mqtt_client w = Some sent ->
  publish_check (device_topic device_id "control") (json_dumps command) = None ->
  has_char "/" device_id = false ->
  ~ has_substring "status" device_id -> ~ has_substring "sensor" device_id ->
  ~ has_substring "energy" device_id ->
  decode (json_dumps command) = Ok text -> json_loads text = Ok p ->
  let w' := snd (control clk device_id command w) in
  exists topic body,
    mqtt_client w' = Some (sent ++ [(topic, body)])
    /\ on_message clk' {| topic := topic; payload := body |} w' = (Ok tt, w').
Proof.
  intros Hc Hok Hslash Hs Hn He Hd Hp w'. subst w'.
  unfold control_device, try_except, bind, mqtt_publish.
  change ("smarthome/" +:+ device_id +:+ "/control")
    with (device_topic device_id "control").
  rewrite Hc, Hok. cbn.
  exists (device_topic device_id "control"), (json_dumps command).
  split; [reflexivity |].
  apply contains_false in Hs, Hn, He.
  apply (route_none decode json_loads json_dumps sqlite_real clk'
           {| topic := device_topic device_id "control";
              payload := json_dumps command |} text p _ Hd Hp);
    cbn [topic];
    rewrite contains_device_topic by reflexivity;
    rewrite ?Hs, ?Hn, ?He; reflexivity.
Qed.

(** *** Translated actions *)

Lemma only_publishes_refl w : only_publishes w w.
Proof.
  unfold only_publishes. split_and!; try reflexivity.
  destruct (mqtt_client w) as [sent|]; [| reflexivity].
  exists []. rewrite app_nil_r. reflexivity.
Qed.

Lemma only_publishes_trans w1 w2 w3 :
  only_publishes w1 w2 -> only_publishes w2 w3 -> only_publishes w1 w3.
Proof.
  unfold only_publishes.
  intros (A1 & A2 & A3 & A4 & A5 & A6) (B1 & B2 & B3 & B4 & B5 & B6).
  split_and!; try congruence.
  destruct (mqtt_client w1) as [sent|].
  - destruct A6 as [more Hm]. rewrite Hm in B6. destruct B6 as [more' ->].
    exists (more ++ more'). rewrite app_assoc. reflexivity.
  - rewrite A6 in B6. exact B6.
Qed.

Lemma execute_only_publishes action w : only_publishes w (snd (execute action w)).
Proof.
  unfold execute_action, bind, lift.
  destruct (py_get action "device_id" JNull) as [device_id|e];
    [| apply only_publishes_refl].
  destruct (py_get action "command" JNull) as [command|e];
    [| apply only_publishes_refl].
  destruct (truthy device_id && truthy command); [| apply only_publishes_refl].
  unfold mqtt_publish.
  destruct (mqtt_client w) as [sent|] eqn:Hc; [| apply only_publishes_refl].
  destruct (publish_check _ _); [apply only_publishes_refl |].
  unfold only_publishes. cbn. rewrite Hc. split_and!; try reflexivity. eauto.
Qed.

Lemma for_each_only_publishes actions :
  forall w, only_publishes w (snd (for_each execute actions w)).
Proof.
  induction actions as [|a actions IH]; intros w; cbn [for_each].
  - apply only_publishes_refl.
  - unfold bind. pose proof (execute_only_publishes a w) as Ha.
    destruct (execute a w) as [[[]|e] w1]; cbn in Ha; [| exact Ha].
    eapply only_publishes_trans; [exact Ha | apply IH].
Qed.

(** X16: [ai_command] always answers and never raises, whatever the request,
    the key and the translator do; it changes neither the in-memory
    dicts nor the store (so, other than [control_device], it logs no
    command) nor what was emitted or printed; all it can do is hand
    messages to the MQTT client after those that the client has. *)
Theorem ai_command_only_publishes key generate_content request w :
  (exists response, fst (ai key generate_content request w) = Ok response)
  /\ only_publishes w (snd (ai key generate_content request w)).
Proof.
  unfold ai_command, try_except.
  cbv beta iota zeta delta [bind lift sqlite3_connect ret].
  destruct (py_get request "command" (JStr "")) as [user_input|e];
    [| split; [eauto | apply only_publishes_refl]].
  destruct (negb (truthy_id key)); [split; [eauto | apply only_publishes_refl] |].
  destruct (generate_content _) as [text|e];
    [| split; [eauto | apply only_publishes_refl]].
  destruct (json_loads text) as [ai_response|e];
    [| split; [eauto | apply only_publishes_refl]].
  destruct (py_get ai_response "actions" (JArr [])) as [actions|e];
    [| split; [eauto | apply only_publishes_refl]].
  destruct (py_iter actions) as [l|e];
    [| split; [eauto | apply only_publishes_refl]].
  pose proof (for_each_only_publishes l w) as Hl.
  destruct (for_each execute l w) as [[[]|e] w1]; cbn in Hl;
    [| split; [eauto | exact Hl]].
  destruct (py_get ai_response "response" (JStr "Commands executed"));
    split; eauto.
Qed.

(** X17: Without an API key, unset or empty, a request that is a dict gets the
    answer that the key is not configured; the translator is not
    consulted and nothing changes. *)
Theorem ai_command_without_key key generate_content req w :
  key = None \/ key = Some "" ->
  ai_command json_loads json_dumps py_repr publish_check
    key generate_content (JObj req) w
  = (Ok (JObj [("success", JBool false);
               ("error", JStr "Gemini API key not configured")]), w).
Proof.
  intros Hk%truthy_id_false. unfold ai_command, try_except, bind, lift, ret.
  cbn [py_get]. rewrite Hk. reflexivity.
Qed.

(** X18: When the translation fails, because the translator raises, or its
    text is no JSON, or the JSON is no dict, no action is executed: the
    answer is a failure with the text of the exception and nothing
    changes. *)
Theorem ai_command_translation_failure key generate_content req w :
  key <> "" ->
  let prompt := prompt_text py_repr
                  (match dict_lookup "command" req with
                   | Some v => v
                   | None => JStr ""
                   end)
                  (device_context (t_devices (db w))) in
  let failure e := (Ok (JObj [("success", JBool false);
                              ("error", JStr (str_exn e))]), w) in
  (forall e, generate_content prompt = Raise e ->
     ai (Some key) generate_content (JObj req) w = failure e)
  /\ (forall text e,
        generate_content prompt = Ok text -> json_loads text = Raise e ->
        ai (Some key) generate_content (JObj req) w = failure e)
  /\ (forall text p,
        generate_content prompt = Ok text -> json_loads text = Ok p ->
        (forall items, p <> JObj items) ->
        ai (Some key) generate_content (JObj req) w
        = failure (Exn "AttributeError"
                     ("'" +:+ type_name p +:+ "' object has no attribute 'get'"))).
Proof.
  intros Hkey prompt failure. subst prompt failure. cbv beta.
  split_and!.
  - intros e Hg. unfold ai_command.
    cbv beta iota zeta delta [try_except bind lift sqlite3_connect ret py_get].
    rewrite (truthy_id_Some key Hkey). cbv beta iota delta [negb].
    rewrite Hg. reflexivity.
  - intros text e Hg Hl. unfold ai_command.
    cbv beta iota zeta delta [try_except bind lift sqlite3_connect ret py_get].
    rewrite (truthy_id_Some key Hkey). cbv beta iota delta [negb].
    rewrite Hg, Hl. reflexivity.
  - intros text p Hg Hl Hp. unfold ai_command.
    cbv beta iota zeta delta [try_except bind lift sqlite3_connect ret].
    cbn [py_get].
    rewrite (truthy_id_Some key Hkey). cbv beta iota delta [negb].
    rewrite Hg, Hl.
    destruct p; try reflexivity. destruct (Hp items eq_refl).
Qed.

Lemma execute_passed_over action w : passed_over action -> execute action w = (Ok tt, w).
Proof.
  intros (items & -> & H). unfold execute_action, bind, lift. cbn [py_get].
  rewrite H. reflexivity.
Qed.

Lemma for_each_passed_over actions w :
  Forall passed_over actions -> for_each execute actions w = (Ok tt, w).
Proof.
  induction 1 as [|a actions Ha _ IH]; [reflexivity |].
  cbn [for_each]. unfold bind. rewrite (execute_passed_over a w Ha). exact IH.
Qed.

(** X19: Actions without a device id or without a command (or with a falsy
    one) are passed over without a word: nothing is published, even with
    no MQTT client at all, and the answer is a success that lists them
    among its actions. *)
Theorem ai_command_passes_over key generate_content req resp text actions w :
  key <> "" ->
  generate_content
    (prompt_text py_repr
       (match dict_lookup "command" req with
        | Some v => v
        | None => JStr ""
        end)
       (device_context (t_devices (db w)))) = Ok text ->
  json_loads text = Ok (JObj resp) ->
  dict_lookup "actions" resp = Some (JArr actions) ->
  Forall passed_over actions ->
  ai (Some key) generate_content (JObj req) w
  = (Ok (JObj [("success", JBool true);
               ("response", match dict_lookup "response" resp with
                            | Some v => v
                            | None => JStr "Commands executed"
                            end);
               ("actions", JArr actions)]), w).
Proof.
  intros Hkey Hgen Hload Hacts Hall.
  rewrite (ai_command_loop json_loads json_dumps py_repr publish_check key
             generate_content req resp text actions w Hkey Hgen Hload Hacts).
  rewrite (for_each_passed_over actions w Hall). reflexivity.
Qed.

End Commands.

(** ** Starting up *)

(** X20: [init_database] inserts the sample devices into an empty devices
    table and leaves a table that has rows as it is, so that a restart
    keeps what the devices reported; it touches nothing else, and running
    it again changes nothing. *)
Theorem init_database_seeds_once w :
  let w' := snd (init_database w) in
  fst (init_database w) = Ok tt
  /\ (t_devices (db w) = [] -> t_devices (db w') = sample_devices)
  /\ (t_devices (db w) <> [] -> w' = w)
  /\ t_device_logs (db w') = t_device_logs (db w)
  /\ t_energy_consumption (db w') = t_energy_consumption (db w)
  /\ t_security_events (db w') = t_security_events (db w)
  /\ devices w' = devices w /\ sensor_data w' = sensor_data w
  /\ snd (init_database w') = w'.
Proof.
  destruct w as [dv sd [rows logs energy security] em pr cl].
  unfold init_database, bind, sqlite3_connect, commit. cbn.
  destruct rows as [|row rows]; cbn; split_and!; try reflexivity; try congruence.
Qed.

(** ** The further properties on concrete messages *)

Lemma topic_device_id_roundtrip_witness :
  topic_device_id (device_topic "living_room_light" "status")
  = Some "living_room_light"
  /\ topic_device_id ("smarthome/" +:+ "living_room_light" +:+ "/control")
     = Some "living_room_light".
Proof. apply (topic_device_id_roundtrip "living_room_light" "status"). reflexivity. Defined.

Lemma status_failure_after_replace_witness :
  ingest_more sample_clock
    (message "smarthome/living_room_light/status" (JArr [])) started
  = (Ok tt,
     {| devices := <["living_room_light" := JArr []]> (devices started);
        sensor_data := sensor_data started; db := db started;
        emitted := emitted started;
        printed := printed started ++
          ["Error processing MQTT message: " +:+
           str_exn (Exn "AttributeError" "'list' object has no attribute 'get'")];
        mqtt_client := mqtt_client started |}).
Proof.
  apply (status_failure_after_replace sample_decode loads_more sample_json_dumps sample_real
           sample_clock (message "smarthome/living_room_light/status" (JArr []))
           (sample_json_dumps (JArr [])) (JArr []) "living_room_light"
           (Exn "AttributeError" "'list' object has no attribute 'get'") started);
    [reflexivity | vm_compute; reflexivity | in_topic | reflexivity | discriminate
    | reflexivity].
Defined.

Lemma sensor_failure_after_replace_witness :
  ingest_more sample_clock
    (message "smarthome/motion_sensor_entrance/sensor" (JArr [])) started
  = (Ok tt,
     {| devices := devices started;
        sensor_data := <["motion_sensor_entrance" := JArr []]> (sensor_data started);
        db := db started; emitted := emitted started;
        printed := printed started ++
          ["Error processing MQTT message: '" +:+ type_name (JArr [])
             +:+ "' object has no attribute 'get'"];
        mqtt_client := mqtt_client started |}).
Proof.
  apply (sensor_failure_after_replace sample_decode loads_more sample_json_dumps sample_real
           sample_clock (message "smarthome/motion_sensor_entrance/sensor" (JArr []))
           (sample_json_dumps (JArr [])) (JArr []) "motion_sensor_entrance" started);
    [reflexivity | vm_compute; reflexivity | in_topic | in_topic | reflexivity
    | discriminate | discriminate].
Defined.

Lemma energy_all_or_nothing_witness :
  ingest sample_clock fan_energy started = (Ok tt, started)
  \/ (exists e, ingest sample_clock fan_energy started = (Ok tt, after_error e started))
  \/ (exists power,
        ingest sample_clock fan_energy started
        = (Ok tt,
           {| devices := devices started; sensor_data := sensor_data started;
              db := sql_insert_energy sample_real "living_room_fan" power
                      (CURRENT_TIMESTAMP sample_clock) (db started);
              emitted := emitted started; printed := printed started;
              mqtt_client := mqtt_client started |})).
Proof.
  apply (energy_all_or_nothing sample_decode sample_json_loads sample_json_dumps sample_real
           sample_clock fan_energy
           (sample_json_dumps (JObj [("power_watts", JInt 45)]))
           (JObj [("power_watts", JInt 45)]) "living_room_fan" started);
    [reflexivity | vm_compute; reflexivity | in_topic | in_topic | in_topic
    | reflexivity].
Defined.

Lemma device_topics_routing_witness :
  ingest sample_clock
    {| topic := device_topic "living_room_light" "control";
       payload := sample_json_dumps power_on |} started
  = (Ok tt, started).
Proof.
  destruct (device_topics_routing sample_decode sample_json_loads sample_json_dumps sample_real
              sample_clock "living_room_light" (sample_json_dumps power_on)
              (sample_json_dumps power_on) power_on started)
    as (_ & _ & _ & H);
    [reflexivity | in_topic | in_topic | in_topic | reflexivity
    | vm_compute; reflexivity |].
  exact H.
Defined.

(** A command for the entrance motion sensor, heard by the hub on the
    control topic, is handled as a reading of that sensor. *)
Lemma device_id_word_decides_witness :
  ingest sample_clock
    {| topic := device_topic "motion_sensor_entrance" "control";
       payload := sample_json_dumps power_on |} started
  = guarded (handle_sensor_data sample_clock (Some "motion_sensor_entrance") power_on)
      started.
Proof.
  destruct (device_id_word_decides sample_decode sample_json_loads sample_json_dumps sample_real
              sample_clock "motion_sensor_entrance" "control"
              (sample_json_dumps power_on) (sample_json_dumps power_on) power_on
              started)
    as [_ H]; [reflexivity | reflexivity | vm_compute; reflexivity |].
  apply H; in_topic.
Defined.


Lemma other_devices_untouched_witness :
  devices (snd (ingest sample_clock living_room_status started)) !! "kitchen_light"
  = devices started !! "kitchen_light".
Proof.
  destruct (other_devices_untouched sample_decode sample_json_loads sample_json_dumps sample_real
              sample_clock living_room_status "kitchen_light" started)
    as (H & _); [vm_compute; discriminate |].
  exact H.
Defined.

Lemma get_devices_lists_rows_witness :
  snd (get_devices sample_json_loads home) = home
  /\ length [device_dict (sample_device "light1" "Light 1" "light" "hall" brightness_100)
               (JObj [("brightness", JInt 100)])]
     = length (t_devices (db home)).
Proof.
  destruct (get_devices_lists_rows sample_json_loads home
              [device_dict (sample_device "light1" "Light 1" "light" "hall" brightness_100)
                 (JObj [("brightness", JInt 100)])])
    as (H & Hlen & _); [vm_compute; reflexivity |].
  split; [exact H | exact Hlen].
Defined.

Lemma get_devices_corrupt_config_witness :
  exists e', get_devices sample_json_loads corrupt_home = (Raise e', corrupt_home).
Proof.
  apply (get_devices_corrupt_config sample_json_loads corrupt_home
           (sample_device "light2" "Light 2" "light" "hall" "brightness=100")
           "brightness=100"
           (Exn "JSONDecodeError" "Expecting value: line 1 column 1 (char 0)"));
    [apply list_elem_of_further, list_elem_of_here | reflexivity | discriminate
    | vm_compute; reflexivity].
Defined.

Lemma status_shows_in_listing_witness :
  exists l config,
    fst (get_devices sample_json_loads (snd (ingest sample_clock light1_status home)))
    = Ok (JArr l)
    /\ l !! 0%nat
       = Some (JObj [("id", JStr "light1"); ("name", JStr "Light 1");
                     ("type", JStr "light"); ("room", JStr "hall");
                     ("status", JStr "online");
                     ("last_seen", JStr "2024-01-01 00:00:00");
                     ("config", config)]).
Proof.
  destruct (status_shows_in_listing sample_decode sample_json_loads sample_json_dumps sample_real
              sample_clock light1_status (sample_json_dumps status_online_80)
              [("status", JStr "online"); ("brightness", JInt 80)] "light1" "online"
              0%nat (sample_device "light1" "Light 1" "light" "hall" brightness_100)
              [device_dict (sample_device "light1" "Light 1" "light" "hall" brightness_100)
                 (JObj [("brightness", JInt 100)])]
              home)
    as (l & config & Hget & _ & _ & Hl & _);
    [reflexivity | vm_compute; reflexivity | in_topic | reflexivity | discriminate
    | reflexivity | reflexivity | reflexivity | vm_compute; reflexivity |].
  exists l, config. split; [exact Hget | exact Hl].
Defined.

Lemma control_device_sends_and_logs_witness :
  control_device sample_json_dumps sample_publish_check sample_clock
    "living_room_fan" power_on started
  = (Ok (JObj [("success", JBool true); ("message", JStr "Command sent")], 200),
     {| devices := devices started; sensor_data := sensor_data started;
        db := sql_insert_log "living_room_fan" "control_command"
                (sample_json_dumps power_on) (CURRENT_TIMESTAMP sample_clock)
                (db started);
        emitted := emitted started; printed := printed started;
        mqtt_client :=
          Some ([] ++ [(device_topic "living_room_fan" "control",
                        sample_json_dumps power_on)]) |}).
Proof.
  apply (control_device_sends_and_logs sample_json_dumps sample_publish_check
           sample_clock "living_room_fan" power_on [] started);
    [reflexivity | vm_compute; reflexivity].
Defined.

Lemma control_echo_is_ignored_witness :
  exists topic body,
    mqtt_client (snd (control_device sample_json_dumps sample_publish_check
                        sample_clock "living_room_fan" power_on started))
    = Some ([] ++ [(topic, body)])
    /\ ingest sample_clock {| topic := topic; payload := body |}
         (snd (control_device sample_json_dumps sample_publish_check
                 sample_clock "living_room_fan" power_on started))
       = (Ok tt,
          snd (control_device sample_json_dumps sample_publish_check
                 sample_clock "living_room_fan" power_on started)).
Proof.
  apply (control_echo_is_ignored sample_decode sample_json_loads sample_json_dumps sample_real
           sample_publish_check sample_clock sample_clock "living_room_fan" power_on
           [] (sample_json_dumps power_on) power_on started);
    [reflexivity | vm_compute; reflexivity | reflexivity | in_topic | in_topic
    | in_topic | reflexivity | vm_compute; reflexivity].
Defined.

Lemma ai_command_without_key_witness :
  ai_command sample_json_loads sample_json_dumps sample_json_dumps
    sample_publish_check None translate_three
    (JObj [("command", JStr "switch everything on")]) started
  = (Ok (JObj [("success", JBool false);
               ("error", JStr "Gemini API key not configured")]), started).
Proof.
  apply (ai_command_without_key sample_json_loads sample_json_dumps sample_json_dumps
           sample_publish_check None translate_three
           [("command", JStr "switch everything on")] started).
  left. reflexivity.
Defined.

Lemma ai_command_translation_failure_witness :
  ai_command sample_json_loads sample_json_dumps sample_json_dumps
    sample_publish_check (Some "key") (fun _ => Ok "Sorry, I cannot do that.")
    (JObj [("command", JStr "switch everything on")]) started
  = (Ok (JObj [("success", JBool false);
               ("error", JStr "Expecting value: line 1 column 1 (char 0)")]),
     started).
Proof.
  destruct (ai_command_translation_failure sample_json_loads sample_json_dumps
              sample_json_dumps sample_publish_check "key"
              (fun _ => Ok "Sorry, I cannot do that.")
              [("command", JStr "switch everything on")] started)
    as (_ & H & _); [discriminate |].
  apply (H "Sorry, I cannot do that."
           (Exn "JSONDecodeError" "Expecting value: line 1 column 1 (char 0)"));
    [reflexivity | vm_compute; reflexivity].
Defined.

(** An action without a device id is answered as done, with no MQTT
    client to send it. *)
Lemma ai_command_passes_over_witness :
  ai_command loads_more sample_json_dumps sample_json_dumps sample_publish_check
    (Some "key") (fun _ => Ok (sample_json_dumps no_device_action))
    (JObj [("command", JStr "switch it on")]) world0
  = (Ok (JObj [("success", JBool true); ("response", JStr "Done");
               ("actions", JArr [JObj [("command", power_on)]])]), world0).
Proof.
  apply (ai_command_passes_over loads_more sample_json_dumps sample_json_dumps
           sample_publish_check "key"
           (fun _ => Ok (sample_json_dumps no_device_action))
           [("command", JStr "switch it on")]
           [("actions", JArr [JObj [("command", power_on)]]);
            ("response", JStr "Done")]
           (sample_json_dumps no_device_action)
           [JObj [("command", power_on)]] world0);
    [discriminate | reflexivity | vm_compute; reflexivity | reflexivity |].
  constructor; [| constructor].
  exists [("command", power_on)]. split; reflexivity.
Defined.

(** Integers beyond 53 bits in the REAL column: rounded to the nearest
    double, ties to even. *)
Example round53_above_2_53 :
  round53 9007199254740993 = 9007199254740992
  /\ round53 9007199254740995 = 9007199254740996
  /\ round53 (-9007199254740993) = -9007199254740992
  /\ round53 9223372036854775807 = 9223372036854775808
  /\ round53 45 = 45.
Proof. vm_compute. repeat split. Qed.
